(** * Notification reconciliation engine of the Proxy Market dashboard

    Shallow embedding of [src/context/NotificationContext.tsx]: the
    notification list, the set of seen order ids, the map of last known
    statuses, the reconcile pass [refreshNotifications] and the
    acknowledgement operations [markAsRead] / [markAllAsRead]; with them
    the values the provider derives from the list, [formatRelativeTime],
    the list as [components/header/NotificationDropdown.tsx] renders it,
    and the status keys that [normalizeOrder] of
    [services/api/orderService.ts] hands to the engine.

    Conventions of the embedding.
    - A JavaScript string is a [string] holding its UTF-8 bytes.
    - A value of type [string | number] (order ids, raw statuses) is a
      [JsPrim.t]; the numbers that occur are integral identifiers.
    - A [Date] is the integer number of milliseconds since the epoch; a date
      field of an order is [None] when the field is absent or empty (falsy)
      and [Some t] when it denotes the instant [t].
    - React state is threaded explicitly: every operation maps a [State] to
      the [State] after the update has been applied.  The two refs of the
      provider mirror the state and are read as the state itself.
    - [Date.now()] is an input of the pass ([now]); one pass observes one
      clock value.
    - Writes to [localStorage] mirror the three structures and are not
      represented separately; [console.error] is not represented.
    - [toLowerCase] covers the Basic Latin and Latin-1 letters and
      [replace(/\s/g, '_')] the ASCII white space; date strings are taken
      to parse (no invalid [Date]). *)

From Stdlib Require Import ZArith String Ascii List Bool Lia Permutation Sorted DecimalString.
From stdpp Require Import base gmap sets list strings.
Import ListNotations.

Local Open Scope string_scope.
Local Open Scope Z_scope.
Local Open Scope list_scope.

(** ** JavaScript primitives used by the engine *)

Module JsPrim.

(** A value of TypeScript type [string | number]. *)
Inductive t : Type :=
| Str (s : string)
| Num (z : Z).

(** [String(v)] (also what a template literal does to [v]). *)
Definition toString (v : t) : string :=
  match v with
  | Str s => s
  | Num z => NilZero.string_of_int (Z.to_int z)
  end.

(** [a === b]: no coercion between a string and a number. *)
Definition strictEq (a b : t) : bool :=
  match a, b with
  | Str s1, Str s2 => String.eqb s1 s2
  | Num z1, Num z2 => Z.eqb z1 z2
  | _, _ => false
  end.

End JsPrim.

(** Truthiness of a string: only the empty string is falsy. *)
Definition truthy (s : string) : bool := negb (String.eqb s EmptyString).

(** Truthiness of an optional string ([undefined] is falsy). *)
Definition truthyOpt (o : option string) : bool :=
  match o with
  | Some s => truthy s
  | None => false
  end.

(** [a || b] where [a] is an optional string and [b] a string. *)
Definition orElse (a : option string) (b : string) : string :=
  match a with
  | Some s => if truthy s then s else b
  | None => b
  end.

(** [a === b] between an optional string and a string. *)
Definition optStrEq (a : option string) (b : string) : bool :=
  match a with
  | Some s => String.eqb s b
  | None => false
  end.

Definition lowerAscii (c : ascii) : ascii :=
  let n := nat_of_ascii c in
  if ((65 <=? n) && (n <=? 90))%nat then ascii_of_nat (n + 32) else c.

(** Second byte of a two-byte UTF-8 sequence led by 0xC3: the capital
    letters U+00C0..U+00DE (all but the multiplication sign U+00D7). *)
Definition latin1Upper (n : nat) : bool :=
  ((128 <=? n) && (n <=? 158) && negb (n =? 151))%nat.

Fixpoint toLowerCaseFrom (afterC3 : bool) (s : string) : string :=
  match s with
  | EmptyString => EmptyString
  | String c s' =>
      let n := nat_of_ascii c in
      let c' := if afterC3 && latin1Upper n then ascii_of_nat (n + 32)
                else lowerAscii c in
      String c' (toLowerCaseFrom (n =? 195)%nat s')
  end.

(** [s.toLowerCase()] on the Basic Latin and Latin-1 letters, which cover
    the status labels of the backend ("Livré", "En préparation", ...). *)
Definition toLowerCase (s : string) : string := toLowerCaseFrom false s.

(** [s.includes(x)]. *)
Fixpoint includes (s x : string) : bool :=
  String.prefix x s ||
  match s with
  | EmptyString => false
  | String _ s' => includes s' x
  end.

Definition isWhitespace (c : ascii) : bool :=
  let n := nat_of_ascii c in
  (((9 <=? n) && (n <=? 13)) || (n =? 32))%nat.

(** [s.replace(/\s/g, '_')] on the ASCII white space characters. *)
Fixpoint replaceWhitespace (s : string) : string :=
  match s with
  | EmptyString => EmptyString
  | String c s' =>
      String (if isWhitespace c then "_"%char else c) (replaceWhitespace s')
  end.

Fixpoint repeatChar (n : nat) (c : ascii) : string :=
  match n with
  | O => EmptyString
  | S n' => String c (repeatChar n' c)
  end.

(** [s.padStart(n, c)]. *)
Definition padStart (n : nat) (c : ascii) (s : string) : string :=
  repeatChar (n - String.length s) c +:+ s.

(** The double quote character. *)
Definition dquote : ascii := ascii_of_nat 34.

(** [Date.now()] printed inside a template literal. *)
Definition showZ (z : Z) : string := NilZero.string_of_int (Z.to_int z).

(** ** Data model *)

Inductive NotificationType : Type :=
| new_order
| status_change
| delivered.

Definition NotificationType_eqb (a b : NotificationType) : bool :=
  match a, b with
  | new_order, new_order => true
  | status_change, status_change => true
  | delivered, delivered => true
  | _, _ => false
  end.

(** The string a [NotificationType] is at run time. *)
Definition typeName (t : NotificationType) : string :=
  match t with
  | new_order => "new_order"
  | status_change => "status_change"
  | delivered => "delivered"
  end.

(** [client] / [user] of an order, with the fields the engine reads. *)
Record Person : Type := mkPerson {
  prenoms : option string;
  nom : option string;
  name : option string;
}.

Module Order.

(** The fields of an [Order] that [refreshNotifications] reads. *)
Record t : Type := mk {
  id : JsPrim.t;
  numero : option string;
  order_number : option string;
  client : option Person;
  user : option Person;
  status : JsPrim.t;
  status_text : option string;
  order_date : option Z;
  created_at : option Z;
  updated_at : option Z;
  location_name : option string; (* adresse_livraison?.location_name *)
  delivery_location : option string;
  deliveryLocation : option string;
}.

End Order.

Module Notification.

Record t : Type := mk {
  id : string;
  orderId : JsPrim.t;
  type : NotificationType;
  message : string;
  customerName : string;
  orderNumber : string;
  location : option string;
  status : option string;
  previousStatus : option string;
  timestamp : Z;
  isRead : bool;
  isNew : bool;
}.

(** [{ ...n, isRead: true, isNew: false }] *)
Definition read (n : t) : t :=
  mk (id n) (orderId n) (type n) (message n) (customerName n)
     (orderNumber n) (location n) (status n) (previousStatus n)
     (timestamp n) true false.

(** [{ ...n, type: "delivered", message: ..., status: currentStatus }] *)
Definition upgrade (n : t) (currentStatus : string) : t :=
  mk (id n) (orderId n) delivered "a été livrée avec succès"
     (customerName n) (orderNumber n) (location n) (Some currentStatus)
     (previousStatus n) (timestamp n) (isRead n) (isNew n).

(** [{ ...n, type: "delivered", message: ..., status: currentStatus,
       timestamp: ts }] *)
Definition upgradeAt (n : t) (currentStatus : string) (ts : Z) : t :=
  mk (id n) (orderId n) delivered "a été livrée avec succès"
     (customerName n) (orderNumber n) (location n) (Some currentStatus)
     (previousStatus n) ts (isRead n) (isNew n).

End Notification.

(** The three structures of the provider, and its loading flag. *)
Record State : Type := mkState {
  notifications : list Notification.t;
  seenOrderIds : gset string;
  lastOrderStatuses : gmap string string;
  isLoading : bool;
}.

(** The provider as it is mounted: [useState([])], [new Set()],
    [new Map()], [false]. *)
Definition initialState : State := mkState [] ∅ ∅ false.

Definition setNotifications (l : list Notification.t) (st : State) : State :=
  mkState l (seenOrderIds st) (lastOrderStatuses st) (isLoading st).

Definition setSeenOrderIds (s : gset string) (st : State) : State :=
  mkState (notifications st) s (lastOrderStatuses st) (isLoading st).

Definition setLastOrderStatuses (m : gmap string string) (st : State) : State :=
  mkState (notifications st) (seenOrderIds st) m (isLoading st).

Definition setIsLoading (b : bool) (st : State) : State :=
  mkState (notifications st) (seenOrderIds st) (lastOrderStatuses st) b.

(** ** Helpers of the provider *)

(** [[a, b].filter(Boolean).join(" ")], [None] when no part is left. *)
Definition joinParts (a b : option string) : option string :=
  match truthyOpt a, truthyOpt b with
  | true, true => Some (default EmptyString a +:+ " " +:+ default EmptyString b)
  | true, false => a
  | false, true => b
  | false, false => None
  end.

Definition getCustomerName (order : Order.t) : string :=
  let fromClient :=
    match Order.client order with
    | Some client => joinParts (prenoms client) (nom client)
    | None => None
    end in
  match fromClient with
  | Some s => s
  | None =>
      let fromUser :=
        match Order.user order with
        | Some user =>
            if truthyOpt (nom user) || truthyOpt (prenoms user)
            then joinParts (prenoms user) (nom user)
            else None
        | None => None
        end in
      match fromUser with
      | Some s => s
      | None =>
          match Order.user order with
          | Some user => orElse (name user) "Client"
          | None => "Client"
          end
      end
  end.

Definition getLocation (order : Order.t) : string :=
  if truthyOpt (Order.location_name order)
  then default EmptyString (Order.location_name order)
  else if truthyOpt (Order.delivery_location order)
          || truthyOpt (Order.deliveryLocation order)
       then orElse (Order.delivery_location order)
                   (orElse (Order.deliveryLocation order) EmptyString)
       else "Non spécifiée".

(** [order.numero || order.order_number || `CMD-${...padStart(6, '0')}`] *)
Definition getOrderNumber (order : Order.t) : string :=
  orElse (Order.numero order)
    (orElse (Order.order_number order)
       ("CMD-" +:+ padStart 6 "0"%char (JsPrim.toString (Order.id order)))).

(** [order.status_text || String(order.status)] *)
Definition getCurrentStatus (order : Order.t) : string :=
  orElse (Order.status_text order) (JsPrim.toString (Order.status order)).

(** [statusLower.includes("livré") || statusLower.includes("delivered")] *)
Definition isDelivered (currentStatus : string) : bool :=
  let statusLower := toLowerCase currentStatus in
  includes statusLower "livré" || includes statusLower "delivered".

Definition generateStatusMessage (currentStatus : string)
    (previousStatus : option string) : string :=
  let statusLower := toLowerCase currentStatus in
  if includes statusLower "livré" || includes statusLower "delivered"
  then "a été livrée avec succès"
  else if includes statusLower "préparation" || includes statusLower "preparing"
  then "est en cours de préparation"
  else if includes statusLower "livraison" || includes statusLower "delivering"
  then "est en cours de livraison"
  else if includes statusLower "annulé" || includes statusLower "cancelled"
  then "a été annulée"
  else if includes statusLower "attente" && includes statusLower "paiement"
  then "est en attente de paiement"
  else if truthyOpt previousStatus
  then "est passée à " +:+ String dquote currentStatus +:+ String dquote EmptyString
  else "a changé de statut".

Definition getNotificationType (currentStatus : string) : NotificationType :=
  let statusLower := toLowerCase currentStatus in
  if includes statusLower "livré" || includes statusLower "delivered"
  then delivered
  else status_change.

(** ** The reconcile pass *)

Section Reconcile.

(** [prev] is the argument of the state updater; [currentSeen] and
    [currentStatuses] are the two refs; [now] is the clock. *)
Variable prev : list Notification.t.
Variable currentSeen : gset string.
Variable currentStatuses : gmap string string.
Variable now : Z.

(** [(n) => n.orderId === order.id && n.type === "new_order" && !n.isRead] *)
Definition isUnreadNewOrderFor (order : Order.t) (n : Notification.t) : bool :=
  JsPrim.strictEq (Notification.orderId n) (Order.id order)
  && NotificationType_eqb (Notification.type n) new_order
  && negb (Notification.isRead n).

Definition isNewOrder (order : Order.t) : bool :=
  negb (bool_decide (JsPrim.toString (Order.id order) ∈ currentSeen)).

Definition previousStatusOf (order : Order.t) : option string :=
  currentStatuses !! JsPrim.toString (Order.id order).

(** [!isNewOrder && previousStatus && previousStatus !== currentStatus] *)
Definition hasStatusChanged (order : Order.t) : bool :=
  negb (isNewOrder order)
  && truthyOpt (previousStatusOf order)
  && negb (optStrEq (previousStatusOf order) (getCurrentStatus order)).

(** The notification pushed for an order that was never seen. *)
Definition newOrderEvent (order : Order.t) : list Notification.t :=
  let orderId := JsPrim.toString (Order.id order) in
  let currentStatus := getCurrentStatus order in
  let hasExistingNewOrderNotif := existsb (isUnreadNewOrderFor order) prev in
  if isNewOrder order && negb hasExistingNewOrderNotif then
    let customerName := getCustomerName order in
    let orderNumber := getOrderNumber order in
    let location := getLocation order in
    let notificationId := "new-" +:+ orderId +:+ "-" +:+ showZ now in
    if isDelivered currentStatus then
      [ Notification.mk notificationId (Order.id order) delivered
          "a été livrée avec succès" customerName orderNumber
          (Some location) (Some currentStatus) None
          (default (default (default now (Order.order_date order))
                      (Order.created_at order)) (Order.updated_at order))
          false true ]
    else
      [ Notification.mk notificationId (Order.id order) new_order
          "a passé une nouvelle commande" customerName orderNumber
          (Some location) (Some currentStatus) None
          (default (default now (Order.order_date order))
             (Order.created_at order))
          false true ]
  else [].

(** The copy pushed when an unread "new_order" notification exists and the
    order is now delivered. *)
Definition upgradeEvent (order : Order.t) : list Notification.t :=
  let currentStatus := getCurrentStatus order in
  match find (isUnreadNewOrderFor order) prev with
  | Some existingNotif =>
      if isDelivered currentStatus
         && negb (optStrEq (Notification.status existingNotif) currentStatus)
      then
        [ Notification.upgradeAt existingNotif currentStatus
            (default (Notification.timestamp existingNotif)
               (Order.updated_at order)) ]
      else []
  | None => []
  end.

(** The notification pushed for a change of status. *)
Definition statusChangeEvent (order : Order.t) : list Notification.t :=
  let orderId := JsPrim.toString (Order.id order) in
  let currentStatus := getCurrentStatus order in
  let previousStatus := previousStatusOf order in
  if hasStatusChanged order && truthyOpt previousStatus then
    let customerName := getCustomerName order in
    let orderNumber := getOrderNumber order in
    let location := getLocation order in
    let message := generateStatusMessage currentStatus previousStatus in
    let hasSameStatusNotif :=
      existsb (fun n =>
                 JsPrim.strictEq (Notification.orderId n) (Order.id order)
                 && optStrEq (Notification.status n) currentStatus
                 && negb (Notification.isRead n)) prev in
    if negb hasSameStatusNotif then
      let notificationId :=
        "status-" +:+ orderId +:+ "-" +:+ replaceWhitespace currentStatus
        +:+ "-" +:+ showZ now in
      [ Notification.mk notificationId (Order.id order)
          (getNotificationType currentStatus) message customerName
          orderNumber (Some location) (Some currentStatus) previousStatus
          (default now (Order.updated_at order))
          false true ]
    else []
  else [].

(** What one iteration of [orders.forEach] pushes, in order. *)
Definition orderEvents (order : Order.t) : list Notification.t :=
  newOrderEvent order ++ upgradeEvent order ++ statusChangeEvent order.

(** One iteration of [orders.forEach] on the two accumulators
    [newNotifications] and [updatedStatuses]. *)
Definition forEachOrder
    (acc : list Notification.t * gmap string string) (order : Order.t)
  : list Notification.t * gmap string string :=
  let '(newNotifications, updatedStatuses) := acc in
  (newNotifications ++ orderEvents order,
   <[JsPrim.toString (Order.id order) := getCurrentStatus order]>
     updatedStatuses).

Definition forEachOrders (orders : list Order.t)
  : list Notification.t * gmap string string :=
  fold_left forEachOrder orders ([], ∅).

End Reconcile.

(** [new Set(orders.map((o) => String(o.id)))] *)
Definition currentOrderIdsOf (orders : list Order.t) : gset string :=
  list_to_set (map (fun o => JsPrim.toString (Order.id o)) orders).

(** The body of [.map] over the prior notifications that survive the first
    [.filter]; [None] is the [null] removed by the second [.filter]. *)
Definition carryForward (orders : list Order.t) (notif : Notification.t)
  : option Notification.t :=
  match find (fun o => String.eqb (JsPrim.toString (Order.id o))
                         (JsPrim.toString (Notification.orderId notif)))
             orders with
  | None => None
  | Some order =>
      let currentStatus := getCurrentStatus order in
      if NotificationType_eqb (Notification.type notif) new_order
         && isDelivered currentStatus
         && negb (optStrEq (Notification.status notif) currentStatus)
      then Some (Notification.upgrade notif currentStatus)
      else Some notif
  end.

Definition updatedPrevOf (orders : list Order.t) (prev : list Notification.t)
  : list Notification.t :=
  omap (carryForward orders)
    (List.filter
       (fun notif =>
          bool_decide (JsPrim.toString (Notification.orderId notif)
                       ∈ currentOrderIdsOf orders))
       prev).

(** The deduplication key of a notification. *)
Definition notifKey (notif : Notification.t) : string :=
  match Notification.type notif with
  | new_order | delivered =>
      JsPrim.toString (Notification.orderId notif) +:+ "-"
      +:+ typeName (Notification.type notif)
  | status_change =>
      JsPrim.toString (Notification.orderId notif) +:+ "-"
      +:+ typeName (Notification.type notif) +:+ "-"
      +:+ orElse (Notification.status notif) EmptyString
  end.

(** One iteration of the [for (const notif of combined)] loop on
    [uniqueNotifications] and [seenKeys]. *)
Definition dedupeStep (acc : list Notification.t * gset string)
    (notif : Notification.t) : list Notification.t * gset string :=
  let '(uniqueNotifications, seenKeys) := acc in
  let key := notifKey notif in
  if bool_decide (key ∈ seenKeys) then acc
  else (uniqueNotifications ++ [notif], {[key]} ∪ seenKeys).

Definition dedupe (combined : list Notification.t) : list Notification.t :=
  fst (fold_left dedupeStep combined ([], ∅)).

(** [sort((a, b) => b.timestamp.getTime() - a.timestamp.getTime())]: the
    sort of the language is stable, so is this insertion sort. *)
Fixpoint insertByTimestamp (a : Notification.t) (l : list Notification.t)
  : list Notification.t :=
  match l with
  | [] => [a]
  | b :: l' =>
      if Notification.timestamp b <=? Notification.timestamp a
      then a :: b :: l'
      else b :: insertByTimestamp a l'
  end.

Definition sortByTimestampDesc (l : list Notification.t) : list Notification.t :=
  foldr insertByTimestamp [] l.

(** [newNotifications] after the [forEach]. *)
Definition newNotificationsOf (orders : list Order.t) (now : Z) (st : State)
  : list Notification.t :=
  fst (forEachOrders (notifications st) (seenOrderIds st)
         (lastOrderStatuses st) now orders).

(** [updatedStatuses] after the [forEach]. *)
Definition updatedStatusesOf (orders : list Order.t) (now : Z) (st : State)
  : gmap string string :=
  snd (forEachOrders (notifications st) (seenOrderIds st)
         (lastOrderStatuses st) now orders).

(** [uniqueNotifications] before it is sorted. *)
Definition uniqueNotificationsOf (orders : list Order.t) (now : Z) (st : State)
  : list Notification.t :=
  dedupe (newNotificationsOf orders now st
          ++ updatedPrevOf orders (notifications st)).

(** The state updater run for a feed that is not empty. *)
Definition reconcile (orders : list Order.t) (now : Z) (st : State) : State :=
  let uniqueNotifications := uniqueNotificationsOf orders now st in
  let sorted := sortByTimestampDesc uniqueNotifications in
  let limited := take 30 sorted in
  setNotifications limited
    (setLastOrderStatuses (updatedStatusesOf orders now st) st).

(** What [await orderService.getOrders(1)] does: it rejects, or it resolves
    to a response whose [data] may be absent. *)
Inductive Fetch : Type :=
| FetchError (e : string)
| FetchOk (data : option (list Order.t)).

(** How a block of statements ends. *)
Inductive Completion (A : Type) : Type :=
| Returned (a : A)
| Raised (e : string).
Arguments Returned {A} a.
Arguments Raised {A} e.

(** [!orders || orders.length === 0] *)
Definition noOrders (orders : option (list Order.t)) : bool :=
  match orders with
  | None => true
  | Some l => Nat.eqb (length l) 0
  end.

(** The [try] block of [refreshNotifications]. *)
Definition refreshTry (fetch : Fetch) (now : Z) (st : State)
  : Completion State :=
  match fetch with
  | FetchError e => Raised e
  | FetchOk orders =>
      if noOrders orders
      then Returned (setIsLoading false (setNotifications [] st))
      else Returned (reconcile (default [] orders) now st)
  end.

(** [refreshNotifications]: [setIsLoading(true)], the [try] block, the
    [catch] clause (which only logs) and the [finally] clause. *)
Definition refreshNotifications (fetch : Fetch) (now : Z) (st : State)
  : Completion State :=
  let st0 := setIsLoading true st in
  match refreshTry fetch now st0 with
  | Returned st1 => Returned (setIsLoading false st1)
  | Raised _ => Returned (setIsLoading false st0)
  end.

(** ** Acknowledgement *)

Definition markAsRead (notificationId : string) (st : State) : State :=
  let prev := notifications st in
  let updated :=
    map (fun n => if String.eqb (Notification.id n) notificationId
                  then Notification.read n else n) prev in
  let seen :=
    match find (fun n => String.eqb (Notification.id n) notificationId) prev with
    | Some notification =>
        {[JsPrim.toString (Notification.orderId notification)]}
        ∪ seenOrderIds st
    | None => seenOrderIds st
    end in
  setNotifications updated (setSeenOrderIds seen st).

Definition markAllAsRead (st : State) : State :=
  let prev := notifications st in
  let updated := map Notification.read prev in
  let allOrderIds : gset string :=
    list_to_set (map (fun n => JsPrim.toString (Notification.orderId n)) prev) in
  setNotifications updated (setSeenOrderIds (seenOrderIds st ∪ allOrderIds) st).

(** ** Runs of the engine *)

(** One reconcile pass: what the fetch yields and the clock it reads. *)
Record Pass : Type := mkPass {
  fetched : Fetch;
  clock : Z;
}.

(** The state once the pass has completed; a pass that raised would leave
    the state as it was. *)
Definition runPass (st : State) (p : Pass) : State :=
  match refreshNotifications (fetched p) (clock p) st with
  | Returned st' => st'
  | Raised _ => st
  end.

Definition runPasses (ps : list Pass) (st : State) : State :=
  fold_left runPass ps st.

(** ** Vocabulary of the statements *)

(** The order a notification belongs to, as the string every comparison by
    [String(...)] sees. *)
Definition orderKey (n : Notification.t) : string :=
  JsPrim.toString (Notification.orderId n).

(** Every field but the two flags agrees. *)
Definition sameButFlags (n n' : Notification.t) : Prop :=
  Notification.id n' = Notification.id n
  /\ Notification.orderId n' = Notification.orderId n
  /\ Notification.type n' = Notification.type n
  /\ Notification.message n' = Notification.message n
  /\ Notification.customerName n' = Notification.customerName n
  /\ Notification.orderNumber n' = Notification.orderNumber n
  /\ Notification.location n' = Notification.location n
  /\ Notification.status n' = Notification.status n
  /\ Notification.previousStatus n' = Notification.previousStatus n
  /\ Notification.timestamp n' = Notification.timestamp n.

(** The deduplication loop started with a given [seenKeys]. *)
Fixpoint dedupeFrom (seenKeys : gset string) (l : list Notification.t)
  : list Notification.t :=
  match l with
  | [] => []
  | n :: l' =>
      if bool_decide (notifKey n ∈ seenKeys) then dedupeFrom seenKeys l'
      else n :: dedupeFrom ({[notifKey n]} ∪ seenKeys) l'
  end.

Definition keysOf (l : list Notification.t) : gset string :=
  list_to_set (map notifKey l).

(** Newest first. *)
Definition sortedDesc (l : list Notification.t) : Prop :=
  StronglySorted
    (fun a b => Notification.timestamp b <= Notification.timestamp a) l.

(** The string an order id is compared and stored as. *)
Definition orderIdString (o : Order.t) : string :=
  JsPrim.toString (Order.id o).

(** Unread notifications of one type for the order whose id prints as [k]. *)
Definition unreadOfType (t : NotificationType) (k : string)
    (n : Notification.t) : bool :=
  negb (Notification.isRead n)
  && NotificationType_eqb (Notification.type n) t
  && String.eqb (orderKey n) k.

(** Unread "new_order" and "delivered" notifications, taken together. *)
Definition unreadNewOrDelivered (k : string) (n : Notification.t) : bool :=
  unreadOfType new_order k n || unreadOfType delivered k n.

(** Unread "status_change" notifications carrying the status [v] (an absent
    status counts as the empty one, as in the deduplication key). *)
Definition unreadStatusChange (k v : string) (n : Notification.t) : bool :=
  unreadOfType status_change k n
  && String.eqb (orElse (Notification.status n) EmptyString) v.

(** The id given to the notification of a new order. *)
Definition newOrderId (order : Order.t) (now : Z) : string :=
  "new-" +:+ orderIdString order +:+ "-" +:+ showZ now.

(** The id given to the notification of a status change. *)
Definition statusChangeId (order : Order.t) (now : Z) : string :=
  "status-" +:+ orderIdString order +:+ "-"
  +:+ replaceWhitespace (getCurrentStatus order) +:+ "-" +:+ showZ now.

(** Pass [p] reports, for the order printed [k], the status that the map of
    last statuses holds for it (when it holds one). *)
Definition statusUnchangedIn (k : string) (st : State) (p : Pass) : bool :=
  match fetched p with
  | FetchError _ => true
  | FetchOk data =>
      forallb
        (fun o =>
           if String.eqb (orderIdString o) k then
             match lastOrderStatuses st !! k with
             | Some s => String.eqb (getCurrentStatus o) s
             | None => true
             end
           else true)
        (default [] data)
  end.

(** The status of the order printed [k] changes in none of the passes. *)
Fixpoint statusUnchanged (k : string) (st : State) (ps : list Pass) : bool :=
  match ps with
  | [] => true
  | p :: ps' =>
      statusUnchangedIn k st p && statusUnchanged k (runPass st p) ps'
  end.

(** No id that pass [p] can generate is [i]. *)
Definition freshIn (i : string) (p : Pass) : bool :=
  match fetched p with
  | FetchError _ => true
  | FetchOk data =>
      forallb
        (fun o =>
           negb (String.eqb (newOrderId o (clock p)) i)
           && negb (String.eqb (statusChangeId o (clock p)) i))
        (default [] data)
  end.

(** No pass of the run generates the id [i]. *)
Definition freshIds (i : string) (ps : list Pass) : bool :=
  forallb (freshIn i) ps.

(** The notifications with id [i] of the order printed [k] are read. *)
Definition readFor (i k : string) (st : State) : Prop :=
  forall n, In n (notifications st) ->
            Notification.id n = i -> orderKey n = k ->
            Notification.isRead n = true.

(** The notifications with id [i] are read. *)
Definition readAll (i : string) (st : State) : Prop :=
  forall n, In n (notifications st) ->
            Notification.id n = i -> Notification.isRead n = true.

(** The notifications of the order printed [k]. *)
Definition isFor (k : string) (n : Notification.t) : bool :=
  String.eqb (orderKey n) k.

(** The "delivered" notifications of the order printed [k]. *)
Definition deliveredFor (k : string) (n : Notification.t) : bool :=
  NotificationType_eqb (Notification.type n) delivered && isFor k n.

(** Every order of the feed that is not seen has an unread "new_order"
    notification in the list. *)
Definition unseenFlagged (st : State) (orders : list Order.t) : bool :=
  forallb
    (fun o =>
       negb (isNewOrder (seenOrderIds st) o)
       || existsb (isUnreadNewOrderFor o) (notifications st))
    orders.

(** Every order of the feed is unseen and has no unread "new_order"
    notification yet. *)
Definition newlyFlagged (st : State) (orders : list Order.t) : bool :=
  forallb
    (fun o =>
       isNewOrder (seenOrderIds st) o
       && negb (existsb (isUnreadNewOrderFor o) (notifications st)))
    orders.

(** A sample order: numeric id, a status label and two dates. *)
Definition sampleOrder (i : Z) (label : string) (created updated : option Z)
  : Order.t :=
  Order.mk (JsPrim.Num i) None None None None (JsPrim.Str label) (Some label)
    created created updated None None None.

(** A feed of [n] pending orders with ids [i+1 .. i+n], created at [i+1 ..
    i+n]. *)
Fixpoint sampleFeed (n : nat) (i : Z) : list Order.t :=
  match n with
  | O => []
  | S n' => sampleFeed n' i ++ [sampleOrder (i + Z.of_nat n) "pending"
                                  (Some (i + Z.of_nat n)) None]
  end.

(** A feed of [n] pending orders with ids [1 .. n], all created at the
    instant 5. *)
Fixpoint sameInstantFeed (n : nat) : list Order.t :=
  match n with
  | O => []
  | S n' => sameInstantFeed n' ++ [sampleOrder (Z.of_nat n) "pending"
                                     (Some 5) None]
  end.

(** A sample notification: the unread "new_order" notification of order 1. *)
Definition sampleNotification : Notification.t :=
  Notification.mk "new-1-5" (JsPrim.Num 1) new_order
    "a passé une nouvelle commande" "Client" "CMD-000001" None
    (Some "pending") None 5 false true.

(** A sample state: that notification, order 7 seen, order 1 pending. *)
Definition sampleState : State :=
  mkState [sampleNotification] {["7"]} {["1" := "pending"]} false.

(** Three passes that keep order 1 pending: it is reported alone, then with
    a new order, then the fetch fails. *)
Definition samplePasses : list Pass :=
  [ mkPass (FetchOk (Some [sampleOrder 1 "pending" (Some 5) None])) 2000;
    mkPass (FetchOk (Some [sampleOrder 1 "pending" (Some 5) None;
                           sampleOrder 2 "pending" (Some 6) None])) 3000;
    mkPass (FetchError "Network Error") 4000 ].

(** ** Values the provider derives from the list *)

(** [notifications.filter((n) => !n.isRead).length] *)
Definition unreadCount (st : State) : nat :=
  length (List.filter (fun n => negb (Notification.isRead n))
            (notifications st)).

(** [notifications.some((n) => n.isNew && !n.isRead)] *)
Definition hasNewNotifications (st : State) : bool :=
  existsb (fun n => Notification.isNew n && negb (Notification.isRead n))
    (notifications st).

(** [notifications.some((n) => n.isNew && !n.isRead &&
      (n.type === "status_change" || n.type === "delivered"))] *)
Definition hasStatusChanges (st : State) : bool :=
  existsb
    (fun n =>
       Notification.isNew n && negb (Notification.isRead n)
       && (NotificationType_eqb (Notification.type n) status_change
           || NotificationType_eqb (Notification.type n) delivered))
    (notifications st).

(** ** [formatRelativeTime] *)

(** What [formatRelativeTime] returns: one of its own labels, or the date
    handed to [toLocaleDateString]. *)
Inductive RelativeTime : Type :=
| Label (text : string)
| LocaleDate (date : Z).

(** [now] is the [new Date()] the function reads; [Math.floor] of a
    quotient by a positive number is the quotient of [Z]. *)
Definition formatRelativeTime (now date : Z) : RelativeTime :=
  let diffMs := now - date in
  let diffMins := diffMs / 60000 in
  let diffHours := diffMs / 3600000 in
  let diffDays := diffMs / 86400000 in
  if diffMins <? 1 then Label "À l'instant"
  else if diffMins <? 60 then Label ("Il y a " +:+ showZ diffMins +:+ " min")
  else if diffHours <? 24 then Label ("Il y a " +:+ showZ diffHours +:+ " h")
  else if diffDays <? 7 then Label ("Il y a " +:+ showZ diffDays +:+ " j")
  else LocaleDate date.

(** ** The notification menu ([NotificationDropdown]) *)

(** [[...notifications].sort((a, b) => b.timestamp.getTime()
      - a.timestamp.getTime())] *)
Definition allNotifications (st : State) : list Notification.t :=
  sortByTimestampDesc (notifications st).

(** [allNotifications.some((n) => !n.isRead)]: whether the button that marks
    everything as read is shown. *)
Definition showMarkAllAsRead (st : State) : bool :=
  existsb (fun n => negb (Notification.isRead n)) (allNotifications st).

(** ** The status that [normalizeOrder] hands to the engine *)

Module RawOrder.

(** How the object received from the API holds an optional text: the key is
    absent, it holds [null] (or another falsy value that is not a string),
    or it holds a string. *)
Inductive Field : Type :=
| Absent
| Null
| Text (s : string).

(** The two keys of the raw order that decide its status. *)
Record t : Type := mk {
  status : JsPrim.t;
  status_text : Field;
}.

End RawOrder.

(** The result of a property lookup in one of the two [statusMap] objects:
    nothing, one of the labels, or a member that every object inherits
    (which is not a string). *)
Inductive JsValue : Type :=
| VUndefined
| VString (s : string)
| VInherited.

(** [statusMap[order.status]] in the branch [typeof order.status ===
    'number']. *)
Definition numberStatusMap (z : Z) : JsValue :=
  if z =? 0 then VString "En attente de paiement"
  else if z =? 1 then VString "En préparation"
  else if z =? 2 then VString "En livraison"
  else if z =? 3 then VString "Livré"
  else if z =? 4 then VString "Annulé"
  else VUndefined.

(** [statusMap[key]] in the branch [typeof order.status === 'string']; the
    key is in lower case, so the only inherited members it can name are
    [constructor] and [__proto__]. *)
Definition stringStatusMap (key : string) : JsValue :=
  if String.eqb key "pending" then VString "En attente"
  else if String.eqb key "preparing" then VString "En préparation"
  else if String.eqb key "delivering" then VString "En livraison"
  else if String.eqb key "delivered" then VString "Livré"
  else if String.eqb key "cancelled" then VString "Annulé"
  else if String.eqb key "constructor" || String.eqb key "__proto__"
  then VInherited
  else VUndefined.

(** [v || d] *)
Definition valueOr (v d : JsValue) : JsValue :=
  match v with
  | VUndefined => d
  | VString s => if truthy s then v else d
  | VInherited => v
  end.

Definition fieldTruthy (f : RawOrder.Field) : bool :=
  match f with
  | RawOrder.Text s => truthy s
  | _ => false
  end.

(** The variable [statusText] of [normalizeOrder] once the [if] block is
    passed. *)
Definition normalizedStatusText (order : RawOrder.t) : JsValue :=
  match RawOrder.status_text order with
  | RawOrder.Text s =>
      if truthy s then VString s
      else
        match RawOrder.status order with
        | JsPrim.Num z => valueOr (numberStatusMap z) (VString "En attente")
        | JsPrim.Str st => valueOr (stringStatusMap (toLowerCase st)) (VString st)
        end
  | _ =>
      match RawOrder.status order with
      | JsPrim.Num z => valueOr (numberStatusMap z) (VString "En attente")
      | JsPrim.Str st => valueOr (stringStatusMap (toLowerCase st)) (VString st)
      end
  end.

(** The keys [status] and [status_text] of the object that [normalizeOrder]
    returns, as an [Order] holds them.  The object literal ends with
    [...order], so a key that the raw order has keeps its raw value:
    [status] always, [status_text] unless the key is absent.  [None] when
    [status_text] would not be a string. *)
Definition normalizedStatusFields (order : RawOrder.t)
  : option (JsPrim.t * option string) :=
  match RawOrder.status_text order with
  | RawOrder.Absent =>
      match normalizedStatusText order with
      | VString s => Some (RawOrder.status order, Some s)
      | VUndefined => Some (RawOrder.status order, None)
      | VInherited => None
      end
  | RawOrder.Null => Some (RawOrder.status order, None)
  | RawOrder.Text s => Some (RawOrder.status order, Some s)
  end.

(** [o] carries the status keys that [normalizeOrder] gives to [raw]. *)
Definition normalizedFrom (raw : RawOrder.t) (o : Order.t) : Prop :=
  normalizedStatusFields raw = Some (Order.status o, Order.status_text o).

(** ** Runs of passes and acknowledgements *)

(** What can happen to the provider: a reconcile pass, a click on one
    notification, a click on the button that marks everything as read. *)
Inductive Action : Type :=
| Refresh (p : Pass)
| MarkAsRead (notificationId : string)
| MarkAllAsRead.

Definition runAction (st : State) (a : Action) : State :=
  match a with
  | Refresh p => runPass st p
  | MarkAsRead notificationId => markAsRead notificationId st
  | MarkAllAsRead => markAllAsRead st
  end.

Definition runActions (acts : list Action) (st : State) : State :=
  fold_left runAction acts st.

(** The flags, the type, the status and the message of a notification
    agree: it is new exactly while it is unread, it has a status, its type
    is "delivered" exactly when that status is a delivered one, and the two
    fixed messages go with their types. *)
Definition coherent (n : Notification.t) : Prop :=
  Notification.isNew n = negb (Notification.isRead n)
  /\ (exists s, Notification.status n = Some s
                /\ NotificationType_eqb (Notification.type n) delivered
                   = isDelivered s)
  /\ (Notification.type n = delivered ->
      Notification.message n = "a été livrée avec succès")
  /\ (Notification.type n = new_order ->
      Notification.message n = "a passé une nouvelle commande").

(** Sample actions: two passes around a click on the first notification. *)
Definition sampleActions : list Action :=
  [ Refresh (mkPass (FetchOk (Some (sampleFeed 3 0))) 1000);
    MarkAsRead "new-3-1000";
    Refresh (mkPass (FetchOk (Some [sampleOrder 3 "Livré" (Some 3) (Some 9);
                                    sampleOrder 2 "pending" (Some 2) None]))
               2000) ].

(** No order id of the feed contains a dash. *)
Definition plainIds (orders : list Order.t) : bool :=
  forallb (fun o => negb (includes (orderIdString o) "-")) orders.


(** * Properties *)

(** ** The pass always completes *)

Lemma refreshNotifications_returns fetch now st :
  exists st', refreshNotifications fetch now st = Returned st'.
Proof.
  unfold refreshNotifications, refreshTry.
  destruct fetch as [e|orders]; [eauto|].
  destruct (noOrders orders); eauto.
Qed.

Lemma runPass_noOrders orders now st :
  noOrders orders = true ->
  runPass st (mkPass (FetchOk orders) now)
  = mkState [] (seenOrderIds st) (lastOrderStatuses st) false.
Proof.
  intros H. unfold runPass, refreshNotifications, refreshTry.
  cbn [fetched clock]. rewrite H. reflexivity.
Qed.

Lemma runPass_reconcile orders now st :
  noOrders (Some orders) = false ->
  runPass st (mkPass (FetchOk (Some orders)) now)
  = setIsLoading false (reconcile orders now (setIsLoading true st)).
Proof.
  intros H. unfold runPass, refreshNotifications, refreshTry.
  cbn [fetched clock]. rewrite H. reflexivity.
Qed.

(** ** Scope loss and fetch failure *)

(** C1. A pass whose feed is empty or absent ends with an empty notification
    list, whatever the state before it. *)
Theorem scope_loss_clears_all (st : State) (now : Z)
    (orders : option (list Order.t)) :
  noOrders orders = true ->
  exists st',
    refreshNotifications (FetchOk orders) now st = Returned st'
    /\ notifications st' = [].
Proof.
  intros H. unfold refreshNotifications, refreshTry. rewrite H.
  eexists. split; [reflexivity|reflexivity].
Qed.

Lemma scope_loss_clears_all_witness :
  noOrders (Some []) = true
  /\ exists st',
       refreshNotifications (FetchOk (Some [])) 1000 sampleState = Returned st'
       /\ notifications st' = [].
Proof.
  split; [reflexivity|].
  apply (scope_loss_clears_all sampleState 1000 (Some [])). reflexivity.
Defined.

(** C10. The scope-loss branch touches the notification list only: the set
    of seen ids and the map of last statuses are what they were. *)
Theorem scope_loss_frame (st : State) (now : Z)
    (orders : option (list Order.t)) :
  noOrders orders = true ->
  exists st',
    refreshNotifications (FetchOk orders) now st = Returned st'
    /\ seenOrderIds st' = seenOrderIds st
    /\ lastOrderStatuses st' = lastOrderStatuses st.
Proof.
  intros H. unfold refreshNotifications, refreshTry. rewrite H.
  eexists. repeat split.
Qed.

Lemma scope_loss_frame_witness :
  noOrders None = true
  /\ exists st',
       refreshNotifications (FetchOk None) 1000 sampleState = Returned st'
       /\ seenOrderIds st' = seenOrderIds sampleState
       /\ lastOrderStatuses st' = lastOrderStatuses sampleState.
Proof.
  split; [reflexivity|].
  apply (scope_loss_frame sampleState 1000 None). reflexivity.
Defined.

(** C8. When the fetch fails the pass still returns to its caller, and the
    notification list, the set of seen ids and the map of last statuses are
    exactly what they were before the pass. *)
Theorem fetch_failure_atomic (st : State) (now : Z) (e : string) :
  exists st',
    refreshNotifications (FetchError e) now st = Returned st'
    /\ notifications st' = notifications st
    /\ seenOrderIds st' = seenOrderIds st
    /\ lastOrderStatuses st' = lastOrderStatuses st.
Proof.
  unfold refreshNotifications, refreshTry. eexists. repeat split.
Qed.

(** ** Acknowledging one notification *)

Lemma read_sameButFlags n : sameButFlags n (Notification.read n).
Proof. unfold sameButFlags. simpl. tauto. Qed.

Lemma find_map_stable {A : Type} (p : A -> bool) (f : A -> A) (l : list A) :
  (forall a, p (f a) = p a) ->
  find p (map f l) = option_map f (find p l).
Proof.
  intros Hp. induction l as [|a l IH]; simpl; [reflexivity|].
  rewrite Hp. destruct (p a); [reflexivity|exact IH].
Qed.

Lemma markAsRead_idempotent notificationId st :
  markAsRead notificationId (markAsRead notificationId st)
  = markAsRead notificationId st.
Proof.
  unfold markAsRead, setNotifications, setSeenOrderIds. cbn [notifications seenOrderIds lastOrderStatuses isLoading].
  set (f := fun n => if String.eqb (Notification.id n) notificationId
                     then Notification.read n else n).
  set (p := fun n => String.eqb (Notification.id n) notificationId).
  assert (Hp : forall a, p (f a) = p a).
  { intros a. unfold p, f. destruct (String.eqb (Notification.id a) notificationId) eqn:E;
      [simpl; exact E | exact E]. }
  assert (Hf : forall a, f (f a) = f a).
  { intros a. unfold f at 2 3.
    destruct (String.eqb (Notification.id a) notificationId) eqn:E.
    - unfold f. simpl. rewrite E. reflexivity.
    - unfold f. rewrite E. reflexivity. }
  rewrite (find_map_stable p f _ Hp).
  f_equal.
  - rewrite map_map. apply map_ext. exact Hf.
  - destruct (find p (notifications st)) as [n0|]; simpl; [|reflexivity].
    assert (Hk : JsPrim.toString (Notification.orderId (f n0))
                 = JsPrim.toString (Notification.orderId n0)).
    { unfold f. destruct (String.eqb (Notification.id n0) notificationId); reflexivity. }
    rewrite Hk, (assoc_L (∪)), (idemp_L (∪)). reflexivity.
Qed.

(** C7. When a notification with the given id is in the list, [markAsRead]
    sets [isRead] and clears [isNew] on it, keeps its other fields and every
    other notification (at the same position), adds the order id of that
    notification to the seen set, and a second call changes neither the list
    nor the seen set. *)
Theorem markAsRead_spec (st : State) (notificationId : string)
    (n0 : Notification.t) :
  find (fun n => String.eqb (Notification.id n) notificationId)
       (notifications st) = Some n0 ->
  let st' := markAsRead notificationId st in
  length (notifications st') = length (notifications st)
  /\ (forall (i : nat) (n : Notification.t),
         notifications st !! i = Some n ->
         exists n',
           notifications st' !! i = Some n'
           /\ (Notification.id n = notificationId ->
               Notification.isRead n' = true
               /\ Notification.isNew n' = false
               /\ sameButFlags n n')
           /\ (Notification.id n <> notificationId -> n' = n))
  /\ seenOrderIds st' = {[orderKey n0]} ∪ seenOrderIds st
  /\ lastOrderStatuses st' = lastOrderStatuses st
  /\ notifications (markAsRead notificationId st') = notifications st'
  /\ seenOrderIds (markAsRead notificationId st') = seenOrderIds st'.
Proof.
  intros Hfind st'. subst st'.
  rewrite markAsRead_idempotent.
  repeat split.
  - unfold markAsRead. cbn [notifications setNotifications]. apply length_map.
  - intros i n Hi. unfold markAsRead. cbn [notifications setNotifications].
    rewrite list_lookup_fmap_Some_2 with (x := n) by exact Hi. 
    eexists. split; [reflexivity|]. split.
    + intros Hid. apply String.eqb_eq in Hid. rewrite Hid.
      repeat split; apply read_sameButFlags.
    + intros Hid. apply String.eqb_neq in Hid. rewrite Hid. reflexivity.
  - unfold markAsRead. cbn [seenOrderIds setNotifications setSeenOrderIds].
    rewrite Hfind. reflexivity.
Qed.

Lemma markAsRead_spec_witness :
  let st' := markAsRead "new-1-5" sampleState in
  length (notifications st') = length (notifications sampleState)
  /\ (forall (i : nat) (n : Notification.t),
         notifications sampleState !! i = Some n ->
         exists n',
           notifications st' !! i = Some n'
           /\ (Notification.id n = "new-1-5" ->
               Notification.isRead n' = true
               /\ Notification.isNew n' = false
               /\ sameButFlags n n')
           /\ (Notification.id n <> "new-1-5" -> n' = n))
  /\ seenOrderIds st' = {["1"]} ∪ seenOrderIds sampleState
  /\ lastOrderStatuses st' = lastOrderStatuses sampleState
  /\ notifications (markAsRead "new-1-5" st') = notifications st'
  /\ seenOrderIds (markAsRead "new-1-5" st') = seenOrderIds st'.
Proof.
  exact (markAsRead_spec sampleState "new-1-5" sampleNotification eq_refl).
Defined.

(** ** The [forEach] loop *)

Section ForEach.

Variable prev : list Notification.t.
Variable currentSeen : gset string.
Variable currentStatuses : gmap string string.
Variable now : Z.

Lemma fold_forEachOrder orders acc m :
  fold_left (forEachOrder prev currentSeen currentStatuses now) orders (acc, m)
  = (acc ++ flat_map (orderEvents prev currentSeen currentStatuses now) orders,
     fold_left (fun m o => <[JsPrim.toString (Order.id o) := getCurrentStatus o]> m)
       orders m).
Proof.
  revert acc m. induction orders as [|o orders IH]; intros acc m; simpl.
  - rewrite app_nil_r. reflexivity.
  - rewrite IH, <- app_assoc. reflexivity.
Qed.

Lemma forEachOrders_fst orders :
  fst (forEachOrders prev currentSeen currentStatuses now orders)
  = flat_map (orderEvents prev currentSeen currentStatuses now) orders.
Proof. unfold forEachOrders. rewrite fold_forEachOrder. reflexivity. Qed.

Lemma forEachOrders_snd orders :
  snd (forEachOrders prev currentSeen currentStatuses now orders)
  = fold_left (fun m o => <[JsPrim.toString (Order.id o) := getCurrentStatus o]> m)
      orders ∅.
Proof. unfold forEachOrders. rewrite fold_forEachOrder. reflexivity. Qed.

End ForEach.

Lemma dom_fold_insert_statuses orders (m : gmap string string) :
  dom (fold_left (fun m o => <[JsPrim.toString (Order.id o) := getCurrentStatus o]> m)
         orders m)
  = currentOrderIdsOf orders ∪ dom m.
Proof.
  revert m. induction orders as [|o orders IH]; intros m; simpl.
  - unfold currentOrderIdsOf. simpl. rewrite (left_id_L ∅ (∪)). reflexivity.
  - rewrite IH, dom_insert_L. unfold currentOrderIdsOf. simpl.
    rewrite (assoc_L (∪)).
    rewrite (comm_L (∪) _ {[JsPrim.toString (Order.id o)]}). reflexivity.
Qed.

Lemma dom_updatedStatusesOf orders now st :
  dom (updatedStatusesOf orders now st) = currentOrderIdsOf orders.
Proof.
  unfold updatedStatusesOf. rewrite forEachOrders_snd, dom_fold_insert_statuses.
  rewrite dom_empty_L, (right_id_L ∅ (∪)). reflexivity.
Qed.

Lemma newNotificationsOf_flat_map orders now st :
  newNotificationsOf orders now st
  = flat_map (orderEvents (notifications st) (seenOrderIds st)
                (lastOrderStatuses st) now) orders.
Proof. unfold newNotificationsOf. apply forEachOrders_fst. Qed.

(** ** The map of last statuses is replaced *)

(** C5 as stated fails: order 1 is recorded by a first pass, the second
    pass reports order 2 only, and the entry of order 1 is gone. *)
Lemma lastStatuses_entry_removed :
  let feed1 := [sampleOrder 1 "pending" (Some 5) None] in
  let feed2 := [sampleOrder 2 "pending" (Some 6) None] in
  let st := runPasses [mkPass (FetchOk (Some feed1)) 1000] initialState in
  let st' := runPass st (mkPass (FetchOk (Some feed2)) 2000) in
  lastOrderStatuses st !! "1" = Some "pending"
  /\ ~ In "1" (map (fun o => JsPrim.toString (Order.id o)) feed2)
  /\ lastOrderStatuses st' !! "1" = None.
Proof.
  split; [vm_compute; reflexivity|]. split.
  - simpl. intros [H|[]]. discriminate H.
  - vm_compute. reflexivity.
Qed.

(** C5, amended. A pass over a feed that is not empty replaces the map of
    last statuses: after it the map has an entry for exactly the order ids
    of the feed, so the entry of an order absent from the feed is removed. *)
Theorem lastStatuses_replaced (st : State) (now : Z) (orders : list Order.t) :
  noOrders (Some orders) = false ->
  exists st',
    refreshNotifications (FetchOk (Some orders)) now st = Returned st'
    /\ dom (lastOrderStatuses st') = currentOrderIdsOf orders.
Proof.
  intros H. unfold refreshNotifications, refreshTry. rewrite H.
  eexists. split; [reflexivity|].
  cbn [lastOrderStatuses setIsLoading reconcile setNotifications
       setLastOrderStatuses default].
  apply dom_updatedStatusesOf.
Qed.

Lemma lastStatuses_replaced_witness :
  let orders := [sampleOrder 2 "pending" (Some 6) None] in
  noOrders (Some orders) = false
  /\ exists st',
       refreshNotifications (FetchOk (Some orders)) 2000 sampleState
       = Returned st'
       /\ dom (lastOrderStatuses st') = currentOrderIdsOf orders.
Proof.
  split; [reflexivity|].
  apply (lastStatuses_replaced sampleState 2000). reflexivity.
Defined.

(** ** The deduplication loop *)

Lemma fold_dedupeStep l u s :
  fst (fold_left dedupeStep l (u, s)) = u ++ dedupeFrom s l.
Proof.
  revert u s. induction l as [|n l IH]; intros u s; simpl.
  - rewrite app_nil_r. reflexivity.
  - destruct (bool_decide (notifKey n ∈ s)); [apply IH|].
    rewrite IH, <- app_assoc. reflexivity.
Qed.

Lemma dedupe_dedupeFrom l : dedupe l = dedupeFrom ∅ l.
Proof. unfold dedupe. rewrite fold_dedupeStep. reflexivity. Qed.

Lemma dedupeFrom_sublist s l : dedupeFrom s l `sublist_of` l.
Proof.
  revert s. induction l as [|n l IH]; intros s; simpl.
  - constructor.
  - destruct (bool_decide (notifKey n ∈ s)).
    + apply sublist_cons, IH.
    + apply sublist_skip, IH.
Qed.

Lemma dedupeFrom_In s l x : In x (dedupeFrom s l) -> In x l.
Proof.
  intros H. apply list_elem_of_In. apply list_elem_of_In in H.
  eapply elem_of_sublist; [exact H|apply dedupeFrom_sublist].
Qed.

Lemma dedupeFrom_key_fresh s l x :
  In x (dedupeFrom s l) -> notifKey x ∉ s.
Proof.
  revert s. induction l as [|n l IH]; intros s; simpl; [tauto|].
  destruct (bool_decide (notifKey n ∈ s)) eqn:E.
  - apply IH.
  - apply bool_decide_eq_false in E. intros [->|H]; [exact E|].
    apply IH in H. intros Hin. apply H. apply elem_of_union_r. exact Hin.
Qed.

Lemma dedupeFrom_NoDup s l : NoDup (map notifKey (dedupeFrom s l)).
Proof.
  revert s. induction l as [|n l IH]; intros s; simpl; [constructor|].
  destruct (bool_decide (notifKey n ∈ s)); [apply IH|].
  simpl. apply NoDup_cons. split; [|apply IH].
  intros Hin. apply list_elem_of_In, in_map_iff in Hin.
  destruct Hin as (x & Hk & Hx).
  apply dedupeFrom_key_fresh in Hx. apply Hx.
  apply elem_of_union_l, elem_of_singleton. exact Hk.
Qed.

(** A list without two equal keys, none of which was seen, is kept whole. *)
Lemma dedupeFrom_id s l :
  NoDup (map notifKey l) ->
  (forall x, In x l -> notifKey x ∉ s) ->
  dedupeFrom s l = l.
Proof.
  revert s. induction l as [|n l IH]; intros s Hnd Hs; simpl; [reflexivity|].
  simpl in Hnd. apply NoDup_cons in Hnd. destruct Hnd as [Hn Hnd].
  rewrite bool_decide_eq_false_2 by (apply Hs; left; reflexivity).
  f_equal. apply IH; [exact Hnd|].
  intros x Hx Hin. apply elem_of_union in Hin. destruct Hin as [Hin|Hin].
  - apply elem_of_singleton in Hin. apply Hn.
    apply list_elem_of_In, in_map_iff. exists x. split; [exact Hin|exact Hx].
  - apply (Hs x); [right; exact Hx|exact Hin].
Qed.

Lemma dedupeFrom_app s l1 l2 :
  dedupeFrom s (l1 ++ l2)
  = dedupeFrom s l1 ++ dedupeFrom (keysOf l1 ∪ s) l2.
Proof.
  revert s. induction l1 as [|n l1 IH]; intros s; simpl.
  - unfold keysOf. simpl. rewrite (left_id_L ∅ (∪)). reflexivity.
  - destruct (bool_decide (notifKey n ∈ s)) eqn:E.
    + rewrite IH. f_equal. f_equal.
      apply bool_decide_eq_true in E. unfold keysOf. simpl.
      apply set_eq. intros k. rewrite !elem_of_union, elem_of_singleton.
      split; [tauto|]. intros [[->|H]|H]; tauto.
    + rewrite IH. simpl. f_equal. f_equal. f_equal. unfold keysOf. simpl.
      apply set_eq. intros k. rewrite !elem_of_union. tauto.
Qed.

(** Of the notifications holding a given key the loop keeps the first. *)
Lemma dedupeFrom_filter_key s l k :
  List.filter (fun n => String.eqb (notifKey n) k) (dedupeFrom s l)
  = if bool_decide (k ∈ s) then []
    else match find (fun n => String.eqb (notifKey n) k) l with
         | Some n => [n]
         | None => []
         end.
Proof.
  revert s. induction l as [|n l IH]; intros s; simpl.
  - destruct (bool_decide (k ∈ s)); reflexivity.
  - destruct (bool_decide (notifKey n ∈ s)) eqn:E.
    + rewrite IH. destruct (bool_decide (k ∈ s)) eqn:Ek; [reflexivity|].
      destruct (String.eqb (notifKey n) k) eqn:En; [|reflexivity].
      apply String.eqb_eq in En. rewrite En in E. congruence.
    + simpl. rewrite IH.
      destruct (String.eqb (notifKey n) k) eqn:En.
      * apply String.eqb_eq in En. subst k. rewrite E.
        rewrite bool_decide_eq_true_2
          by (apply elem_of_union_l, elem_of_singleton; reflexivity).
        reflexivity.
      * apply String.eqb_neq in En.
        destruct (bool_decide (k ∈ s)) eqn:Ek.
        -- apply bool_decide_eq_true in Ek.
           rewrite bool_decide_eq_true_2 by (apply elem_of_union_r; exact Ek).
           reflexivity.
        -- apply bool_decide_eq_false in Ek.
           rewrite bool_decide_eq_false_2; [reflexivity|].
           intros Hin. apply elem_of_union in Hin. destruct Hin as [Hin|Hin].
           ++ apply elem_of_singleton in Hin. congruence.
           ++ contradiction.
Qed.

Lemma dedupe_NoDup l : NoDup (map notifKey (dedupe l)).
Proof. rewrite dedupe_dedupeFrom. apply dedupeFrom_NoDup. Qed.

Lemma dedupe_In l x : In x (dedupe l) -> In x l.
Proof. rewrite dedupe_dedupeFrom. apply dedupeFrom_In. Qed.

Lemma dedupe_id l : NoDup (map notifKey l) -> dedupe l = l.
Proof.
  intros H. rewrite dedupe_dedupeFrom. apply dedupeFrom_id; [exact H|].
  intros x _. apply not_elem_of_empty.
Qed.

(** ** Sorting by timestamp and truncating *)

Lemma insertByTimestamp_perm a l : Permutation (insertByTimestamp a l) (a :: l).
Proof.
  induction l as [|b l IH]; simpl; [reflexivity|].
  destruct (Notification.timestamp b <=? Notification.timestamp a);
    [reflexivity|].
  rewrite IH. apply perm_swap.
Qed.

Lemma sortByTimestampDesc_perm l : Permutation (sortByTimestampDesc l) l.
Proof.
  induction l as [|a l IH]; simpl; [reflexivity|].
  rewrite insertByTimestamp_perm. apply perm_skip, IH.
Qed.

Lemma insertByTimestamp_sorted a l :
  sortedDesc l -> sortedDesc (insertByTimestamp a l).
Proof.
  unfold sortedDesc. induction 1 as [|b l Hs IH Hb]; simpl.
  - constructor; constructor.
  - destruct (Notification.timestamp b <=? Notification.timestamp a) eqn:E.
    + apply Z.leb_le in E. constructor; [constructor; assumption|].
      constructor; [exact E|].
      eapply Forall_impl; [exact Hb|]. simpl. intros c Hc. lia.
    + apply Z.leb_gt in E. constructor; [exact IH|].
      apply List.Forall_forall. intros c Hc.
      apply (Permutation_in _ (insertByTimestamp_perm a l)) in Hc.
      destruct Hc as [<-|Hc]; [lia|].
      rewrite List.Forall_forall in Hb. apply Hb, Hc.
Qed.

Lemma sortByTimestampDesc_sorted l : sortedDesc (sortByTimestampDesc l).
Proof.
  induction l as [|a l IH]; simpl; [constructor|].
  apply insertByTimestamp_sorted, IH.
Qed.

(** Sorting a list that is sorted already changes nothing. *)
Lemma sortByTimestampDesc_id l : sortedDesc l -> sortByTimestampDesc l = l.
Proof.
  unfold sortedDesc. induction 1 as [|a l Hs IH Ha]; simpl; [reflexivity|].
  rewrite IH. destruct l as [|b l]; [reflexivity|]. simpl.
  apply Forall_inv in Ha. apply Z.leb_le in Ha. rewrite Ha. reflexivity.
Qed.

Lemma sortedDesc_take n l : sortedDesc l -> sortedDesc (take n l).
Proof.
  unfold sortedDesc. intros H. revert n.
  induction H as [|a l Hs IH Ha]; intros [|n]; simpl; try constructor.
  - apply IH.
  - apply List.Forall_forall. intros c Hc. rewrite List.Forall_forall in Ha. apply Ha.
    apply list_elem_of_In. apply list_elem_of_In in Hc.
    eapply elem_of_sublist; [exact Hc|apply sublist_take].
Qed.

(** What [slice(0, n)] keeps is at least as recent as what it drops. *)
Lemma sortedDesc_take_drop n l a b :
  sortedDesc l -> In a (take n l) -> In b (drop n l) ->
  Notification.timestamp b <= Notification.timestamp a.
Proof.
  unfold sortedDesc. intros H. revert n.
  induction H as [|c l Hs IH Hc]; intros [|n]; simpl; try tauto.
  intros [<-|Ha] Hb.
  - rewrite List.Forall_forall in Hc. apply Hc.
    apply list_elem_of_In. apply list_elem_of_In in Hb.
    eapply elem_of_sublist; [exact Hb|apply sublist_drop].
  - eapply IH; eassumption.
Qed.

Lemma filter_Permutation_bool {A : Type} (f : A -> bool) (l l' : list A) :
  Permutation l l' -> Permutation (List.filter f l) (List.filter f l').
Proof.
  induction 1 as [|x l l' H IH|x y l|l l' l'' H1 IH1 H2 IH2]; simpl.
  - reflexivity.
  - destruct (f x); [apply perm_skip|]; exact IH.
  - destruct (f x), (f y); try reflexivity. apply perm_swap.
  - etransitivity; eassumption.
Qed.

(** ** Strings *)

Lemma list_ascii_of_append a b :
  list_ascii_of_string (a +:+ b)
  = list_ascii_of_string a ++ list_ascii_of_string b.
Proof.
  induction a as [|c a IH]; [reflexivity|].
  change (String c a +:+ b) with (String c (a +:+ b)). simpl.
  rewrite IH. reflexivity.
Qed.

Lemma list_ascii_of_string_inj a b :
  list_ascii_of_string a = list_ascii_of_string b -> a = b.
Proof.
  intros H. rewrite <- (string_of_list_ascii_of_string a),
    <- (string_of_list_ascii_of_string b), H. reflexivity.
Qed.

Lemma append_inj_l a b s : a +:+ s = b +:+ s -> a = b.
Proof.
  intros H. apply list_ascii_of_string_inj.
  apply (f_equal list_ascii_of_string) in H.
  rewrite !list_ascii_of_append in H. eapply app_inv_tail. exact H.
Qed.

(** Two equal strings end with the same character. *)
Lemma append_last_eq a b s t c d :
  a +:+ (s +:+ String c EmptyString) = b +:+ (t +:+ String d EmptyString) ->
  c = d.
Proof.
  intros H. apply (f_equal list_ascii_of_string) in H.
  rewrite !list_ascii_of_append in H. simpl in H.
  rewrite !app_assoc in H. apply app_inj_tail in H. tauto.
Qed.

Lemma new_order_key_ne_delivered_key a b :
  a +:+ "-" +:+ "new_order" <> b +:+ "-" +:+ "delivered".
Proof.
  intros H.
  change (a +:+ ("-new_orde" +:+ String "r" EmptyString)
          = b +:+ ("-delivere" +:+ String "d" EmptyString)) in H.
  apply append_last_eq in H. discriminate H.
Qed.

(** ** Keys of the notifications of new orders *)

Lemma existsb_false_find {A : Type} (p : A -> bool) (l : list A) :
  existsb p l = false -> find p l = None.
Proof.
  induction l as [|a l IH]; simpl; [reflexivity|].
  destruct (p a); simpl; [discriminate|exact IH].
Qed.

Lemma find_Some_existsb {A : Type} (p : A -> bool) (l : list A) a :
  find p l = Some a -> existsb p l = true.
Proof.
  intros H. apply find_some in H. apply existsb_exists. exists a. exact H.
Qed.

Section NewOrders.

Variable prev : list Notification.t.
Variable currentSeen : gset string.
Variable currentStatuses : gmap string string.
Variable now : Z.

Lemma newOrderEvent_key o n :
  In n (newOrderEvent prev currentSeen now o) ->
  notifKey n = orderIdString o +:+ "-" +:+ "new_order"
  \/ notifKey n = orderIdString o +:+ "-" +:+ "delivered".
Proof.
  unfold newOrderEvent.
  destruct (isNewOrder currentSeen o && _); [|intros []].
  destruct (isDelivered (getCurrentStatus o)); intros [<-|[]];
    [right|left]; reflexivity.
Qed.

Lemma newOrderEvent_key_inj o o' n n' :
  In n (newOrderEvent prev currentSeen now o) ->
  In n' (newOrderEvent prev currentSeen now o') ->
  notifKey n = notifKey n' ->
  orderIdString o = orderIdString o'.
Proof.
  intros Hn Hn' Hk.
  apply newOrderEvent_key in Hn. apply newOrderEvent_key in Hn'.
  destruct Hn as [Hn|Hn], Hn' as [Hn'|Hn']; rewrite Hn, Hn' in Hk.
  - apply append_inj_l in Hk. exact Hk.
  - apply new_order_key_ne_delivered_key in Hk. contradiction.
  - symmetry in Hk. apply new_order_key_ne_delivered_key in Hk. contradiction.
  - apply append_inj_l in Hk. exact Hk.
Qed.

Lemma newOrderEvents_NoDup orders :
  NoDup (map orderIdString orders) ->
  NoDup (map notifKey (flat_map (newOrderEvent prev currentSeen now) orders)).
Proof.
  induction orders as [|o orders IH]; simpl; intros Hnd; [constructor|].
  apply NoDup_cons in Hnd. destruct Hnd as [Ho Hnd].
  rewrite map_app. apply NoDup_app. split; [|split].
  - unfold newOrderEvent.
    destruct (isNewOrder currentSeen o && _); [|constructor].
    destruct (isDelivered (getCurrentStatus o)); apply NoDup_singleton.
  - intros k Hk Hk'. apply list_elem_of_In, in_map_iff in Hk.
    apply list_elem_of_In, in_map_iff in Hk'.
    destruct Hk as (n & Hkn & Hn). destruct Hk' as (n' & Hkn' & Hn').
    apply in_flat_map in Hn'. destruct Hn' as (o' & Ho' & Hn').
    apply Ho. rewrite (newOrderEvent_key_inj o o' n n' Hn Hn' ltac:(congruence)).
    apply list_elem_of_In, in_map. exact Ho'.
  - apply IH, Hnd.
Qed.

(** A newly flagged order yields its notification and nothing else. *)
Lemma orderEvents_newlyFlagged o :
  isNewOrder currentSeen o = true ->
  existsb (isUnreadNewOrderFor o) prev = false ->
  orderEvents prev currentSeen currentStatuses now o
  = newOrderEvent prev currentSeen now o
  /\ length (newOrderEvent prev currentSeen now o) = 1%nat.
Proof.
  intros Hnew Hex. unfold orderEvents, upgradeEvent, statusChangeEvent,
    hasStatusChanged.
  rewrite (existsb_false_find _ _ Hex), Hnew. simpl. rewrite app_nil_r.
  split; [reflexivity|].
  unfold newOrderEvent. rewrite Hnew, Hex. simpl.
  destruct (isDelivered (getCurrentStatus o)); reflexivity.
Qed.

End NewOrders.

Lemma flat_map_newlyFlagged st now orders :
  newlyFlagged st orders = true ->
  newNotificationsOf orders now st
  = flat_map (newOrderEvent (notifications st) (seenOrderIds st) now) orders
  /\ length (newNotificationsOf orders now st) = length orders.
Proof.
  rewrite newNotificationsOf_flat_map. unfold newlyFlagged.
  induction orders as [|o orders IH]; simpl; intros H; [split; reflexivity|].
  apply andb_true_iff in H. destruct H as [Ho H].
  apply andb_true_iff in Ho. destruct Ho as [Hnew Hex].
  apply negb_true_iff in Hex.
  destruct (orderEvents_newlyFlagged (notifications st) (seenOrderIds st)
              (lastOrderStatuses st) now o Hnew Hex) as [He Hl].
  destruct (IH H) as [IH1 IH2].
  rewrite He, IH1. split; [reflexivity|].
  rewrite length_app, Hl. rewrite <- IH1, IH2. reflexivity.
Qed.

(** ** What a pass does to each structure *)

Lemma runPass_notifications st p :
  notifications (runPass st p)
  = match fetched p with
    | FetchError _ => notifications st
    | FetchOk data =>
        if noOrders data then []
        else take 30 (sortByTimestampDesc
                        (uniqueNotificationsOf (default [] data) (clock p) st))
    end.
Proof.
  unfold runPass, refreshNotifications, refreshTry.
  destruct (fetched p) as [e|data]; [reflexivity|].
  destruct (noOrders data); reflexivity.
Qed.

Lemma runPass_seenOrderIds st p :
  seenOrderIds (runPass st p) = seenOrderIds st.
Proof.
  unfold runPass, refreshNotifications, refreshTry.
  destruct (fetched p) as [e|data]; [reflexivity|].
  destruct (noOrders data); reflexivity.
Qed.

Lemma runPass_lastOrderStatuses st p :
  lastOrderStatuses (runPass st p)
  = match fetched p with
    | FetchError _ => lastOrderStatuses st
    | FetchOk data =>
        if noOrders data then lastOrderStatuses st
        else updatedStatusesOf (default [] data) (clock p) st
    end.
Proof.
  unfold runPass, refreshNotifications, refreshTry.
  destruct (fetched p) as [e|data]; [reflexivity|].
  destruct (noOrders data); reflexivity.
Qed.

Lemma runPasses_invariant (I : State -> Prop) :
  (forall st p, I st -> I (runPass st p)) ->
  forall ps st, I st -> I (runPasses ps st).
Proof.
  intros Hstep ps. unfold runPasses.
  induction ps as [|p ps IH]; intros st Hst; simpl; [exact Hst|].
  apply IH, Hstep, Hst.
Qed.

(** ** Order and capacity of the list *)

Lemma capped_sorted u : sortedDesc (take 30 (sortByTimestampDesc u)).
Proof. apply sortedDesc_take, sortByTimestampDesc_sorted. Qed.

Lemma capped_length (u : list Notification.t) :
  (length (take 30 (sortByTimestampDesc u)) <= 30)%nat.
Proof. rewrite length_take. lia. Qed.

Lemma capped_most_recent u :
  exists dropped,
    Permutation (take 30 (sortByTimestampDesc u) ++ dropped) u
    /\ forall a b,
         In a (take 30 (sortByTimestampDesc u)) -> In b dropped ->
         Notification.timestamp b <= Notification.timestamp a.
Proof.
  exists (drop 30 (sortByTimestampDesc u)). split.
  - rewrite take_drop. apply sortByTimestampDesc_perm.
  - intros a b. apply sortedDesc_take_drop, sortByTimestampDesc_sorted.
Qed.

Lemma uniqueNotificationsOf_newlyFlagged st now orders :
  NoDup (map orderIdString orders) ->
  newlyFlagged st orders = true ->
  exists rest,
    uniqueNotificationsOf orders now st
    = flat_map (newOrderEvent (notifications st) (seenOrderIds st) now) orders
      ++ rest
    /\ length (flat_map (newOrderEvent (notifications st) (seenOrderIds st) now)
                 orders) = length orders.
Proof.
  intros Hnd Hnf.
  destruct (flat_map_newlyFlagged st now orders Hnf) as [Hnew Hlen].
  unfold uniqueNotificationsOf. rewrite dedupe_dedupeFrom, dedupeFrom_app.
  rewrite dedupeFrom_id.
  - rewrite Hnew. eexists. split; [reflexivity|].
    rewrite <- Hnew. exact Hlen.
  - rewrite Hnew. apply newOrderEvents_NoDup, Hnd.
  - intros x _. apply not_elem_of_empty.
Qed.

Lemma runPass_sorted_capped st p :
  sortedDesc (notifications st) /\ (length (notifications st) <= 30)%nat ->
  sortedDesc (notifications (runPass st p))
  /\ (length (notifications (runPass st p)) <= 30)%nat.
Proof.
  intros H. rewrite runPass_notifications.
  destruct (fetched p) as [e|data]; [exact H|].
  destruct (noOrders data).
  - split; [constructor|simpl; lia].
  - split; [apply capped_sorted|apply capped_length].
Qed.

(** C6. After a pass whose fetch succeeded the list is sorted by timestamp,
    newest first, and holds at most 30 notifications: it consists of the 30
    most recent of the deduplicated ones.  A feed of 30 or more (so of 40)
    distinct newly flagged orders yields one notification per order before
    the cut, hence exactly 30 after it.  As a failed fetch keeps the list,
    both bounds hold after every run of passes from the initial state. *)
Theorem sorted_and_capped :
  (forall (st : State) (now : Z) (data : option (list Order.t)),
      exists st',
        refreshNotifications (FetchOk data) now st = Returned st'
        /\ sortedDesc (notifications st')
        /\ (length (notifications st') <= 30)%nat
        /\ (forall orders,
               data = Some orders -> noOrders data = false ->
               exists dropped,
                 Permutation (notifications st' ++ dropped)
                   (uniqueNotificationsOf orders now st)
                 /\ forall a b,
                      In a (notifications st') -> In b dropped ->
                      Notification.timestamp b <= Notification.timestamp a)
        /\ (forall orders,
               data = Some orders ->
               NoDup (map orderIdString orders) ->
               newlyFlagged st orders = true ->
               (30 <= length orders)%nat ->
               length (notifications st') = 30%nat
               /\ exists rest,
                    uniqueNotificationsOf orders now st
                    = flat_map (newOrderEvent (notifications st)
                                  (seenOrderIds st) now) orders ++ rest
                    /\ length (flat_map (newOrderEvent (notifications st)
                                           (seenOrderIds st) now) orders)
                       = length orders))
  /\ (forall ps : list Pass,
         sortedDesc (notifications (runPasses ps initialState))
         /\ (length (notifications (runPasses ps initialState)) <= 30)%nat).
Proof.
  split.
  - intros st now data.
    destruct (refreshNotifications_returns (FetchOk data) now st) as [st' Hst'].
    exists st'. split; [exact Hst'|].
    assert (Hn : notifications st'
                 = notifications (runPass st (mkPass (FetchOk data) now))).
    { unfold runPass. cbn [fetched clock]. rewrite Hst'. reflexivity. }
    rewrite runPass_notifications in Hn. cbn [fetched clock] in Hn.
    split; [|split; [|split]].
    + rewrite Hn. destruct (noOrders data); [constructor|apply capped_sorted].
    + rewrite Hn. destruct (noOrders data); [simpl; lia|apply capped_length].
    + intros orders -> Hno. rewrite Hno in Hn. rewrite Hn.
      apply capped_most_recent.
    + intros orders -> Hnd Hnf Hlen.
      assert (Hno : noOrders (Some orders) = false).
      { destruct orders; [simpl in Hlen; lia|reflexivity]. }
      rewrite Hno in Hn. change (default [] (Some orders)) with orders in Hn.
      destruct (uniqueNotificationsOf_newlyFlagged st now orders Hnd Hnf)
        as (rest & Hu & Hl).
      split; [|exists rest; split; [exact Hu|exact Hl]].
      rewrite Hn, length_take.
      rewrite (Permutation_length (sortByTimestampDesc_perm _)).
      rewrite Hu, length_app, Hl. lia.
  - intros ps.
    apply (runPasses_invariant
             (fun st => sortedDesc (notifications st)
                        /\ (length (notifications st) <= 30)%nat)).
    + intros st p. apply runPass_sorted_capped.
    + split; [constructor|simpl; lia].
Qed.

(** Forty newly flagged orders, created at instants 1 to 40: the pass keeps
    thirty notifications. *)
Lemma sorted_and_capped_witness :
  exists st',
    refreshNotifications (FetchOk (Some (sampleFeed 40 0))) 1000 initialState
    = Returned st'
    /\ sortedDesc (notifications st')
    /\ length (notifications st') = 30%nat.
Proof.
  destruct (proj1 sorted_and_capped initialState 1000 (Some (sampleFeed 40 0)))
    as (st' & Hr & Hs & _ & _ & H40).
  exists st'. split; [exact Hr|]. split; [exact Hs|].
  apply (H40 (sampleFeed 40 0) eq_refl).
  - apply (bool_decide_unpack _). vm_compute. exact I.
  - vm_compute. reflexivity.
  - vm_compute. lia.
Defined.

(** ** One notification per deduplication key *)

Lemma NotificationType_eqb_eq a b : NotificationType_eqb a b = true -> a = b.
Proof. destruct a, b; simpl; congruence. Qed.

Lemma capped_NoDup u :
  NoDup (map notifKey u) ->
  NoDup (map notifKey (take 30 (sortByTimestampDesc u))).
Proof.
  intros H. rewrite <- firstn_map.
  eapply sublist_NoDup; [|apply sublist_take].
  rewrite (Permutation_map notifKey (sortByTimestampDesc_perm u)). exact H.
Qed.

Lemma runPass_NoDup st p :
  NoDup (map notifKey (notifications st)) ->
  NoDup (map notifKey (notifications (runPass st p))).
Proof.
  intros H. rewrite runPass_notifications.
  destruct (fetched p) as [e|data]; [exact H|].
  destruct (noOrders data); [constructor|].
  apply capped_NoDup. unfold uniqueNotificationsOf. apply dedupe_NoDup.
Qed.

Lemma runPasses_NoDup ps :
  NoDup (map notifKey (notifications (runPasses ps initialState))).
Proof.
  apply (runPasses_invariant
           (fun st => NoDup (map notifKey (notifications st)))).
  - intros st p. apply runPass_NoDup.
  - constructor.
Qed.

(** Among notifications with pairwise distinct keys, at most one holds a
    given key. *)
Lemma NoDup_filter_key l (p : Notification.t -> bool) k :
  NoDup (map notifKey l) ->
  (forall x, In x l -> p x = true -> notifKey x = k) ->
  (length (List.filter p l) <= 1)%nat.
Proof.
  induction l as [|a l IH]; simpl; intros Hnd Hk; [lia|].
  apply NoDup_cons in Hnd. destruct Hnd as [Ha Hnd].
  assert (IHl := IH Hnd (fun x Hx => Hk x (or_intror Hx))).
  destruct (p a) eqn:Ea; [|exact IHl]. simpl.
  destruct (List.filter p l) as [|x f] eqn:Ef; [simpl; lia|].
  exfalso. apply Ha.
  assert (Hx : In x (List.filter p l)) by (rewrite Ef; left; reflexivity).
  apply filter_In in Hx. destruct Hx as [Hx Hpx].
  rewrite (Hk a (or_introl eq_refl) Ea), <- (Hk x (or_intror Hx) Hpx).
  apply list_elem_of_In, in_map, Hx.
Qed.

Lemma unreadOfType_inv t k n :
  unreadOfType t k n = true ->
  Notification.isRead n = false /\ Notification.type n = t /\ orderKey n = k.
Proof.
  unfold unreadOfType. intros H.
  apply andb_true_iff in H. destruct H as [H Hk].
  apply andb_true_iff in H. destruct H as [Hr Ht].
  apply negb_true_iff in Hr. apply NotificationType_eqb_eq in Ht.
  apply String.eqb_eq in Hk. tauto.
Qed.

(** C2 as stated fails: order 1 is first reported delivered, then reported
    with another status; both its unread "delivered" notification and its
    unread "new_order" notification are in the list. *)
Lemma unread_new_order_and_delivered_coexist :
  let feed1 := [sampleOrder 1 "delivered" (Some 5) (Some 7)] in
  let feed2 := [sampleOrder 1 "returned" (Some 5) (Some 9)] in
  let st := runPasses [mkPass (FetchOk (Some feed1)) 1000;
                       mkPass (FetchOk (Some feed2)) 2000] initialState in
  length (List.filter (unreadNewOrDelivered "1") (notifications st)) = 2%nat.
Proof. vm_compute. reflexivity. Qed.

(** C2, amended. After any run of passes from the initial state and for any
    order id, the list holds at most one unread "new_order" notification, at
    most one unread "delivered" notification (the two types are counted
    apart, as the deduplication key separates them), and at most one unread
    "status_change" notification per status value. *)
Theorem at_most_one_unread_per_key (ps : list Pass) (k : string) :
  let l := notifications (runPasses ps initialState) in
  (length (List.filter (unreadOfType new_order k) l) <= 1)%nat
  /\ (length (List.filter (unreadOfType delivered k) l) <= 1)%nat
  /\ forall v : string,
       (length (List.filter (unreadStatusChange k v) l) <= 1)%nat.
Proof.
  intros l. assert (Hnd := runPasses_NoDup ps). fold l in Hnd.
  split; [|split].
  - apply (NoDup_filter_key l _ (k +:+ "-" +:+ "new_order") Hnd).
    intros x _ Hx. apply unreadOfType_inv in Hx. destruct Hx as (_ & Ht & Hk).
    unfold notifKey. rewrite Ht. unfold orderKey in Hk. rewrite Hk. reflexivity.
  - apply (NoDup_filter_key l _ (k +:+ "-" +:+ "delivered") Hnd).
    intros x _ Hx. apply unreadOfType_inv in Hx. destruct Hx as (_ & Ht & Hk).
    unfold notifKey. rewrite Ht. unfold orderKey in Hk. rewrite Hk. reflexivity.
  - intros v.
    apply (NoDup_filter_key l _ (k +:+ "-" +:+ "status_change" +:+ "-" +:+ v) Hnd).
    intros x _ Hx. unfold unreadStatusChange in Hx.
    apply andb_true_iff in Hx. destruct Hx as [Hx Hv].
    apply unreadOfType_inv in Hx. destruct Hx as (_ & Ht & Hk).
    apply String.eqb_eq in Hv.
    unfold notifKey. rewrite Ht. unfold orderKey in Hk. rewrite Hk, Hv.
    reflexivity.
Qed.

(** ** Where the notifications of a pass come from *)

Lemma strictEq_eq a b : JsPrim.strictEq a b = true -> a = b.
Proof.
  destruct a as [s1|z1], b as [s2|z2]; simpl; try discriminate.
  - intros H. apply String.eqb_eq in H. congruence.
  - intros H. apply Z.eqb_eq in H. congruence.
Qed.

Lemma isUnreadNewOrderFor_inv o e :
  isUnreadNewOrderFor o e = true ->
  Notification.orderId e = Order.id o
  /\ Notification.type e = new_order
  /\ Notification.isRead e = false.
Proof.
  unfold isUnreadNewOrderFor. intros H.
  apply andb_true_iff in H. destruct H as [H Hr].
  apply andb_true_iff in H. destruct H as [Hi Ht].
  apply strictEq_eq in Hi. apply NotificationType_eqb_eq in Ht.
  apply negb_true_iff in Hr. tauto.
Qed.

Section Events.

Variable prev : list Notification.t.
Variable currentSeen : gset string.
Variable currentStatuses : gmap string string.
Variable now : Z.

Lemma newOrderEvent_inv o n :
  In n (newOrderEvent prev currentSeen now o) ->
  isNewOrder currentSeen o = true
  /\ existsb (isUnreadNewOrderFor o) prev = false
  /\ Notification.id n = newOrderId o now
  /\ Notification.orderId n = Order.id o
  /\ Notification.type n
     = (if isDelivered (getCurrentStatus o) then delivered else new_order)
  /\ Notification.status n = Some (getCurrentStatus o)
  /\ Notification.isRead n = false.
Proof.
  unfold newOrderEvent.
  destruct (isNewOrder currentSeen o); [|intros []].
  destruct (existsb (isUnreadNewOrderFor o) prev); [intros []|]. simpl.
  destruct (isDelivered (getCurrentStatus o)); intros [<-|[]];
    repeat split; reflexivity.
Qed.

Lemma upgradeEvent_inv o n :
  In n (upgradeEvent prev o) ->
  exists e,
    find (isUnreadNewOrderFor o) prev = Some e
    /\ isDelivered (getCurrentStatus o) = true
    /\ optStrEq (Notification.status e) (getCurrentStatus o) = false
    /\ n = Notification.upgradeAt e (getCurrentStatus o)
             (default (Notification.timestamp e) (Order.updated_at o)).
Proof.
  unfold upgradeEvent.
  destruct (find (isUnreadNewOrderFor o) prev) as [e|]; [|intros []].
  destruct (isDelivered (getCurrentStatus o)); [|intros []].
  destruct (optStrEq (Notification.status e) (getCurrentStatus o)) eqn:E;
    [intros []|].
  simpl. intros [<-|[]]. exists e. repeat split; first [exact E|reflexivity].
Qed.

Lemma statusChangeEvent_inv o n :
  In n (statusChangeEvent prev currentSeen currentStatuses now o) ->
  hasStatusChanged currentSeen currentStatuses o = true
  /\ Notification.id n = statusChangeId o now
  /\ Notification.orderId n = Order.id o
  /\ Notification.type n = getNotificationType (getCurrentStatus o)
  /\ Notification.status n = Some (getCurrentStatus o)
  /\ Notification.isRead n = false.
Proof.
  unfold statusChangeEvent.
  destruct (hasStatusChanged currentSeen currentStatuses o); [|intros []].
  destruct (truthyOpt (previousStatusOf currentStatuses o)); [|intros []].
  simpl. destruct (negb _); [|intros []].
  intros [<-|[]]. repeat split; reflexivity.
Qed.

Lemma orderEvents_In o n :
  In n (orderEvents prev currentSeen currentStatuses now o) ->
  In n (newOrderEvent prev currentSeen now o)
  \/ In n (upgradeEvent prev o)
  \/ In n (statusChangeEvent prev currentSeen currentStatuses now o).
Proof.
  unfold orderEvents. intros H.
  apply in_app_or in H. destruct H as [H|H]; [tauto|].
  apply in_app_or in H. tauto.
Qed.

End Events.

Lemma carryForward_inv orders m n :
  carryForward orders m = Some n ->
  exists o,
    find (fun o => String.eqb (orderIdString o) (orderKey m)) orders = Some o
    /\ n = if NotificationType_eqb (Notification.type m) new_order
              && isDelivered (getCurrentStatus o)
              && negb (optStrEq (Notification.status m) (getCurrentStatus o))
           then Notification.upgrade m (getCurrentStatus o)
           else m.
Proof.
  unfold carryForward. fold (orderKey m).
  change (fun o => String.eqb (JsPrim.toString (Order.id o)) (orderKey m))
    with (fun o => String.eqb (orderIdString o) (orderKey m)).
  destruct (find _ orders) as [o|]; [|discriminate].
  intros H. exists o. split; [reflexivity|].
  destruct (_ && _ && _); congruence.
Qed.

(** What is carried forward keeps its id, its order and its read flag. *)
Lemma carryForward_keeps orders m n :
  carryForward orders m = Some n ->
  Notification.id n = Notification.id m
  /\ Notification.orderId n = Notification.orderId m
  /\ Notification.isRead n = Notification.isRead m.
Proof.
  intros H. apply carryForward_inv in H. destruct H as (o & _ & ->).
  destruct (_ && _ && _); repeat split; reflexivity.
Qed.

Lemma updatedPrevOf_In orders prev n :
  In n (updatedPrevOf orders prev) ->
  exists m, In m prev /\ carryForward orders m = Some n.
Proof.
  unfold updatedPrevOf. intros H.
  apply list_elem_of_In, list_elem_of_omap in H.
  destruct H as (m & Hm & Hc). exists m. split; [|exact Hc].
  apply list_elem_of_In in Hm. apply filter_In in Hm. tauto.
Qed.

Lemma uniqueNotificationsOf_In orders now st n :
  In n (uniqueNotificationsOf orders now st) ->
  (exists o, In o orders
             /\ In n (orderEvents (notifications st) (seenOrderIds st)
                        (lastOrderStatuses st) now o))
  \/ (exists m, In m (notifications st) /\ carryForward orders m = Some n).
Proof.
  unfold uniqueNotificationsOf. intros H. apply dedupe_In in H.
  apply in_app_or in H. destruct H as [H|H].
  - left. rewrite newNotificationsOf_flat_map in H.
    apply in_flat_map in H. exact H.
  - right. apply updatedPrevOf_In, H.
Qed.

Lemma capped_In u n : In n (take 30 (sortByTimestampDesc u)) -> In n u.
Proof.
  intros H. apply (Permutation_in _ (sortByTimestampDesc_perm u)).
  apply list_elem_of_In. apply list_elem_of_In in H.
  eapply elem_of_sublist; [exact H|apply sublist_take].
Qed.

(** ** Read notifications stay read *)

Lemma hasStatusChanged_unchanged seen (statuses : gmap string string) o :
  match statuses !! orderIdString o with
  | Some s => String.eqb (getCurrentStatus o) s
  | None => true
  end = true ->
  hasStatusChanged seen statuses o = false.
Proof.
  unfold hasStatusChanged, previousStatusOf. fold (orderIdString o).
  destruct (statuses !! orderIdString o) as [s|]; intros H.
  - apply String.eqb_eq in H. subst s. simpl. rewrite String.eqb_refl.
    simpl. rewrite andb_false_r. reflexivity.
  - simpl. rewrite andb_false_r. reflexivity.
Qed.

Section ReadKept.

Variable i : string.

Lemma runPass_readFor k st p :
  k ∈ seenOrderIds st ->
  statusUnchangedIn k st p = true ->
  readFor i k st -> readFor i k (runPass st p).
Proof.
  intros Hseen Hsame Hinv n Hn Hid Hk.
  rewrite runPass_notifications in Hn. unfold statusUnchangedIn in Hsame.
  destruct (fetched p) as [e|data]; [exact (Hinv n Hn Hid Hk)|].
  destruct (noOrders data); [destruct Hn|].
  apply capped_In, uniqueNotificationsOf_In in Hn.
  destruct Hn as [(o & Ho & Hn)|(m & Hm & Hc)].
  - apply orderEvents_In in Hn. destruct Hn as [Hn|[Hn|Hn]].
    + apply newOrderEvent_inv in Hn. destruct Hn as (Hnew & _ & _ & Ho' & _).
      unfold isNewOrder in Hnew. unfold orderKey in Hk. rewrite Ho' in Hk.
      rewrite Hk in Hnew. rewrite bool_decide_eq_true_2 in Hnew by exact Hseen.
      discriminate Hnew.
    + apply upgradeEvent_inv in Hn. destruct Hn as (e & He & _ & _ & ->).
      apply find_some in He. destruct He as [He Hu].
      apply isUnreadNewOrderFor_inv in Hu. destruct Hu as (_ & _ & Hr).
      exact (Hinv e He Hid Hk).
    + apply statusChangeEvent_inv in Hn.
      destruct Hn as (Hch & _ & Ho' & _).
      unfold orderKey in Hk. rewrite Ho' in Hk. fold (orderIdString o) in Hk.
      rewrite forallb_forall in Hsame. specialize (Hsame o Ho).
      rewrite Hk, String.eqb_refl in Hsame. rewrite <- Hk in Hsame.
      rewrite (hasStatusChanged_unchanged _ _ _ Hsame) in Hch.
      discriminate Hch.
  - apply carryForward_keeps in Hc. destruct Hc as (Hi & Ho & Hr).
    rewrite Hr. apply (Hinv m Hm).
    + rewrite <- Hi. exact Hid.
    + unfold orderKey in *. rewrite <- Ho. exact Hk.
Qed.

Lemma runPasses_readFor k ps :
  forall st,
    k ∈ seenOrderIds st ->
    statusUnchanged k st ps = true ->
    readFor i k st -> readFor i k (runPasses ps st).
Proof.
  unfold runPasses.
  induction ps as [|p ps IH]; intros st Hseen Hsame Hinv; [exact Hinv|].
  simpl in Hsame. apply andb_true_iff in Hsame. destruct Hsame as [Hp Hps].
  simpl. apply IH.
  - rewrite runPass_seenOrderIds. exact Hseen.
  - exact Hps.
  - apply runPass_readFor; assumption.
Qed.

Lemma runPass_readAll st p :
  freshIn i p = true -> readAll i st -> readAll i (runPass st p).
Proof.
  intros Hfresh Hinv n Hn Hid.
  rewrite runPass_notifications in Hn. unfold freshIn in Hfresh.
  destruct (fetched p) as [e|data]; [exact (Hinv n Hn Hid)|].
  destruct (noOrders data); [destruct Hn|].
  apply capped_In, uniqueNotificationsOf_In in Hn.
  destruct Hn as [(o & Ho & Hn)|(m & Hm & Hc)].
  - rewrite forallb_forall in Hfresh. specialize (Hfresh o Ho).
    apply andb_true_iff in Hfresh. destruct Hfresh as [Hf1 Hf2].
    apply negb_true_iff, String.eqb_neq in Hf1.
    apply negb_true_iff, String.eqb_neq in Hf2.
    apply orderEvents_In in Hn. destruct Hn as [Hn|[Hn|Hn]].
    + apply newOrderEvent_inv in Hn. destruct Hn as (_ & _ & Hi & _).
      congruence.
    + apply upgradeEvent_inv in Hn. destruct Hn as (e & He & _ & _ & ->).
      apply find_some in He. destruct He as [He Hu].
      apply isUnreadNewOrderFor_inv in Hu. destruct Hu as (_ & _ & Hr).
      exact (Hinv e He Hid).
    + apply statusChangeEvent_inv in Hn. destruct Hn as (_ & Hi & _).
      congruence.
  - apply carryForward_keeps in Hc. destruct Hc as (Hi & Ho & Hr).
    rewrite Hr. apply (Hinv m Hm). rewrite <- Hi. exact Hid.
Qed.

Lemma runPasses_readAll ps :
  forall st, freshIds i ps = true -> readAll i st -> readAll i (runPasses ps st).
Proof.
  unfold runPasses, freshIds.
  induction ps as [|p ps IH]; intros st Hfresh Hinv; [exact Hinv|].
  simpl in Hfresh. apply andb_true_iff in Hfresh. destruct Hfresh as [Hp Hps].
  simpl. apply IH; [exact Hps|]. apply runPass_readAll; assumption.
Qed.

Lemma markAsRead_readAll st : readAll i (markAsRead i st).
Proof.
  intros n Hn Hid. unfold markAsRead in Hn.
  cbn [notifications setNotifications] in Hn.
  apply in_map_iff in Hn. destruct Hn as (m & <- & _).
  destruct (String.eqb (Notification.id m) i) eqn:E; [reflexivity|].
  apply String.eqb_neq in E. contradiction.
Qed.

End ReadKept.

(** C9. After [markAsRead i], with [n0] the notification it acknowledges,
    run any passes in which the status of the order of [n0] does not change.
    The notification with id [i] of that order is never unread again; and
    when no pass generates the id [i] anew, no notification with id [i] at
    all is unread. *)
Theorem read_monotone (st : State) (i : string) (n0 : Notification.t)
    (ps : list Pass) :
  find (fun n => String.eqb (Notification.id n) i) (notifications st)
  = Some n0 ->
  statusUnchanged (orderKey n0) (markAsRead i st) ps = true ->
  let st' := runPasses ps (markAsRead i st) in
  (forall n', In n' (notifications st') ->
              Notification.id n' = i -> orderKey n' = orderKey n0 ->
              Notification.isRead n' = true)
  /\ (freshIds i ps = true ->
      forall n', In n' (notifications st') ->
                 Notification.id n' = i -> Notification.isRead n' = true).
Proof.
  intros Hfind Hsame st'. split.
  - apply (runPasses_readFor i (orderKey n0) ps (markAsRead i st)).
    + unfold markAsRead. cbn [seenOrderIds setNotifications setSeenOrderIds].
      rewrite Hfind. apply elem_of_union_l, elem_of_singleton. reflexivity.
    + exact Hsame.
    + intros n Hn Hid _. apply (markAsRead_readAll i st n Hn Hid).
  - intros Hfresh.
    apply (runPasses_readAll i ps (markAsRead i st) Hfresh).
    apply markAsRead_readAll.
Qed.

Lemma read_monotone_witness :
  let st' := runPasses samplePasses (markAsRead "new-1-5" sampleState) in
  (forall n', In n' (notifications st') ->
              Notification.id n' = "new-1-5" ->
              orderKey n' = orderKey sampleNotification ->
              Notification.isRead n' = true)
  /\ (freshIds "new-1-5" samplePasses = true ->
      forall n', In n' (notifications st') ->
                 Notification.id n' = "new-1-5" ->
                 Notification.isRead n' = true).
Proof.
  apply (read_monotone sampleState "new-1-5" sampleNotification samplePasses).
  - reflexivity.
  - vm_compute. reflexivity.
Defined.

(** ** Keys of delivered notifications *)

Lemma prefix_refl s : String.prefix s s = true.
Proof.
  induction s as [|c s IH]; simpl; [reflexivity|].
  destruct (ascii_dec c c); [exact IH|contradiction].
Qed.

Lemma includes_append_r x y : includes (x +:+ y) y = true.
Proof.
  induction x as [|c x IH].
  - change (EmptyString +:+ y) with y.
    destruct y as [|d y]; simpl; [reflexivity|].
    destruct (ascii_dec d d); [|contradiction].
    rewrite prefix_refl. reflexivity.
  - change (String c x +:+ y) with (String c (x +:+ y)). simpl includes.
    rewrite IH. apply orb_true_r.
Qed.

Lemma toLowerCaseFrom_append f p q :
  exists f',
    toLowerCaseFrom f (p +:+ q)
    = toLowerCaseFrom f p +:+ toLowerCaseFrom f' q.
Proof.
  revert f. induction p as [|c p IH]; intros f.
  - exists f. reflexivity.
  - change (String c p +:+ q) with (String c (p +:+ q)). simpl.
    destruct (IH (nat_of_ascii c =? 195)%nat) as [f' Hf'].
    exists f'. rewrite Hf'. reflexivity.
Qed.

(** A status label that ends with "delivered" is a delivered status. *)
Lemma isDelivered_suffix p : isDelivered (p +:+ "delivered") = true.
Proof.
  unfold isDelivered, toLowerCase.
  destruct (toLowerCaseFrom_append false p "delivered") as [f' Hf'].
  rewrite Hf'.
  assert (Hd : toLowerCaseFrom f' "delivered" = "delivered")
    by (destruct f'; reflexivity).
  rewrite Hd, includes_append_r. apply orb_true_r.
Qed.

(** If a string that ends with "-status_change-" followed by [s] also ends
    with "-delivered", then [s] ends with "delivered". *)
Lemma status_change_key_suffix a b s :
  a +:+ "-" +:+ "status_change" +:+ "-" +:+ s = b +:+ "-" +:+ "delivered" ->
  exists p, s = p +:+ "delivered".
Proof.
  intros H. apply (f_equal list_ascii_of_string) in H.
  rewrite !list_ascii_of_append in H.
  apply (f_equal (@rev ascii)) in H. rewrite !rev_app_distr in H.
  simpl in H.
  assert (Hs : exists r, rev (list_ascii_of_string s)
                         = list_ascii_of_string "dereviled" ++ r).
  { destruct (rev (list_ascii_of_string s)) as [|c1 r]; [discriminate H|].
    injection H as -> H.
    destruct r as [|c2 r]; [discriminate H|]. injection H as -> H.
    destruct r as [|c3 r]; [discriminate H|]. injection H as -> H.
    destruct r as [|c4 r]; [discriminate H|]. injection H as -> H.
    destruct r as [|c5 r]; [discriminate H|]. injection H as -> H.
    destruct r as [|c6 r]; [discriminate H|]. injection H as -> H.
    destruct r as [|c7 r]; [discriminate H|]. injection H as -> H.
    destruct r as [|c8 r]; [discriminate H|]. injection H as -> H.
    destruct r as [|c9 r]; [discriminate H|]. injection H as -> H.
    exists r. reflexivity. }
  destruct Hs as [r Hr].
  exists (string_of_list_ascii (rev r)).
  apply list_ascii_of_string_inj.
  rewrite list_ascii_of_append, list_ascii_of_string_of_list_ascii.
  rewrite <- (rev_involutive (list_ascii_of_string s)), Hr, rev_app_distr.
  reflexivity.
Qed.

Lemma status_change_key_ne_delivered_key a b s :
  isDelivered s = false ->
  a +:+ "-" +:+ "status_change" +:+ "-" +:+ s <> b +:+ "-" +:+ "delivered".
Proof.
  intros Hs H. apply status_change_key_suffix in H. destruct H as [p ->].
  rewrite isDelivered_suffix in Hs. discriminate Hs.
Qed.

Lemma orElse_Some_empty s : orElse (Some s) EmptyString = s.
Proof.
  unfold orElse, truthy. destruct (String.eqb s EmptyString) eqn:E; simpl;
    [|reflexivity].
  apply String.eqb_eq in E. congruence.
Qed.

Lemma getNotificationType_isDelivered s :
  getNotificationType s = if isDelivered s then delivered else status_change.
Proof. reflexivity. Qed.

Section DeliveredKey.

Variable prev : list Notification.t.
Variable currentSeen : gset string.
Variable currentStatuses : gmap string string.
Variable now : Z.

(** Every notification pushed for an order belongs to that order. *)
Lemma orderEvents_orderKey o x :
  In x (orderEvents prev currentSeen currentStatuses now o) ->
  orderKey x = orderIdString o.
Proof.
  intros H. apply orderEvents_In in H. destruct H as [H|[H|H]].
  - apply newOrderEvent_inv in H. destruct H as (_ & _ & _ & Ho & _).
    unfold orderKey. rewrite Ho. reflexivity.
  - apply upgradeEvent_inv in H. destruct H as (e & He & _ & _ & ->).
    apply find_some in He. destruct He as [_ He].
    apply isUnreadNewOrderFor_inv in He. destruct He as (Ho & _).
    unfold orderKey. simpl. rewrite Ho. reflexivity.
  - apply statusChangeEvent_inv in H. destruct H as (_ & _ & Ho & _).
    unfold orderKey. rewrite Ho. reflexivity.
Qed.

(** The "delivered" key of an order is held by notifications of that order
    only. *)
Lemma orderEvents_delivered_key o x k :
  In x (orderEvents prev currentSeen currentStatuses now o) ->
  notifKey x = k +:+ "-" +:+ "delivered" ->
  orderIdString o = k.
Proof.
  intros H Hk. apply orderEvents_In in H. destruct H as [H|[H|H]].
  - apply newOrderEvent_key in H. destruct H as [H|H]; rewrite H in Hk.
    + apply new_order_key_ne_delivered_key in Hk. contradiction.
    + apply append_inj_l in Hk. exact Hk.
  - apply upgradeEvent_inv in H. destruct H as (e & He & _ & _ & ->).
    apply find_some in He. destruct He as [_ He].
    apply isUnreadNewOrderFor_inv in He. destruct He as (Ho & _).
    unfold notifKey in Hk. simpl in Hk. rewrite Ho in Hk.
    apply append_inj_l in Hk. exact Hk.
  - apply statusChangeEvent_inv in H.
    destruct H as (_ & _ & Ho & Ht & Hs & _).
    unfold notifKey in Hk. rewrite Ht, Hs, Ho in Hk.
    rewrite getNotificationType_isDelivered in Hk.
    destruct (isDelivered (getCurrentStatus o)) eqn:Ed.
    + apply append_inj_l in Hk. exact Hk.
    + rewrite orElse_Some_empty in Hk.
      apply status_change_key_ne_delivered_key in Hk; [contradiction|exact Ed].
Qed.

End DeliveredKey.

(** ** Retroactive upgrade *)

Lemma find_app_skip {A : Type} (p : A -> bool) (l1 l2 : list A) :
  (forall x, In x l1 -> p x = false) ->
  find p (l1 ++ l2) = find p l2.
Proof.
  induction l1 as [|a l1 IH]; intros H; simpl; [reflexivity|].
  rewrite (H a (or_introl eq_refl)). apply IH.
  intros x Hx. apply H. right. exact Hx.
Qed.

Lemma NoDup_map_In_inj {A B : Type} (f : A -> B) (l : list A) a b :
  NoDup (map f l) -> In a l -> In b l -> f a = f b -> a = b.
Proof.
  induction l as [|c l IH]; simpl; intros Hnd Ha Hb Hf; [destruct Ha|].
  apply NoDup_cons in Hnd. destruct Hnd as [Hc Hnd].
  destruct Ha as [->|Ha], Hb as [->|Hb].
  - reflexivity.
  - exfalso. apply Hc. rewrite Hf. apply list_elem_of_In, in_map, Hb.
  - exfalso. apply Hc. rewrite <- Hf. apply list_elem_of_In, in_map, Ha.
  - apply IH; assumption.
Qed.

Lemma filter_filter_implies {A : Type} (p q : A -> bool) (l : list A) :
  (forall x, p x = true -> q x = true) ->
  List.filter p l = List.filter p (List.filter q l).
Proof.
  intros Hpq. induction l as [|a l IH]; simpl; [reflexivity|].
  destruct (p a) eqn:Ep.
  - rewrite (Hpq a Ep). simpl. rewrite Ep, IH. reflexivity.
  - destruct (q a); simpl; [rewrite Ep|]; exact IH.
Qed.

Lemma deliveredFor_key k n :
  deliveredFor k n = true -> notifKey n = k +:+ "-" +:+ "delivered".
Proof.
  unfold deliveredFor, isFor. intros H.
  apply andb_true_iff in H. destruct H as [Ht Hk].
  apply NotificationType_eqb_eq in Ht. apply String.eqb_eq in Hk.
  unfold notifKey. rewrite Ht. unfold orderKey in Hk. rewrite Hk. reflexivity.
Qed.

Section Upgrade.

Variable st : State.
Variable now : Z.
Variable orders : list Order.t.
Variable o : Order.t.
Variable n : Notification.t.

Hypothesis Hfind :
  find (isUnreadNewOrderFor o) (notifications st) = Some n.
Hypothesis Hin : In o orders.
Hypothesis Hnodup : NoDup (map orderIdString orders).
Hypothesis Hdelivered : isDelivered (getCurrentStatus o) = true.
Hypothesis Hstatus :
  optStrEq (Notification.status n) (getCurrentStatus o) = false.

Local Abbreviation upgraded :=
  (Notification.upgradeAt n (getCurrentStatus o)
     (default (Notification.timestamp n) (Order.updated_at o))).

Lemma upgrade_orderId : Notification.orderId n = Order.id o.
Proof.
  apply find_some in Hfind. destruct Hfind as [_ H].
  apply isUnreadNewOrderFor_inv in H. tauto.
Qed.

Lemma upgrade_type : Notification.type n = new_order.
Proof.
  apply find_some in Hfind. destruct Hfind as [_ H].
  apply isUnreadNewOrderFor_inv in H. tauto.
Qed.

Lemma upgraded_deliveredFor : deliveredFor (orderIdString o) upgraded = true.
Proof.
  unfold deliveredFor, isFor, orderKey. simpl.
  rewrite upgrade_orderId. apply String.eqb_refl.
Qed.

Lemma orderEvents_upgraded :
  exists rest,
    orderEvents (notifications st) (seenOrderIds st) (lastOrderStatuses st)
      now o = upgraded :: rest.
Proof.
  unfold orderEvents, newOrderEvent, upgradeEvent.
  rewrite (find_Some_existsb _ _ _ Hfind), Hfind, Hdelivered, Hstatus.
  rewrite andb_false_r. simpl. eexists. reflexivity.
Qed.

(** The upgraded copy is the first notification that holds the "delivered"
    key of the order. *)
Lemma combined_find_upgraded :
  find (fun m => String.eqb (notifKey m)
                   (orderIdString o +:+ "-" +:+ "delivered"))
       (newNotificationsOf orders now st
        ++ updatedPrevOf orders (notifications st))
  = Some upgraded.
Proof.
  rewrite newNotificationsOf_flat_map.
  destruct (in_split _ _ Hin) as (l1 & l2 & Hsplit).
  rewrite Hsplit, flat_map_app. simpl flat_map.
  destruct orderEvents_upgraded as [rest Hrest]. rewrite Hrest.
  rewrite <- !app_assoc. rewrite find_app_skip.
  - simpl. rewrite (deliveredFor_key _ _ upgraded_deliveredFor).
    rewrite String.eqb_refl. reflexivity.
  - intros x Hx. apply String.eqb_neq. intros Hk.
    apply in_flat_map in Hx. destruct Hx as (o' & Ho' & Hx).
    apply orderEvents_delivered_key with (k := orderIdString o) in Hx;
      [|exact Hk].
    rewrite Hsplit, map_app in Hnodup. simpl in Hnodup.
    apply NoDup_app in Hnodup. destruct Hnodup as (_ & Hdisj & _).
    apply (Hdisj (orderIdString o)).
    + rewrite <- Hx. apply list_elem_of_In, in_map, Ho'.
    + left.
Qed.

Lemma unique_deliveredFor :
  List.filter (deliveredFor (orderIdString o))
    (uniqueNotificationsOf orders now st) = [upgraded].
Proof.
  rewrite (filter_filter_implies _
             (fun m => String.eqb (notifKey m)
                         (orderIdString o +:+ "-" +:+ "delivered"))).
  - unfold uniqueNotificationsOf. rewrite dedupe_dedupeFrom.
    rewrite dedupeFrom_filter_key.
    rewrite bool_decide_eq_false_2 by apply not_elem_of_empty.
    rewrite combined_find_upgraded. simpl.
    rewrite upgraded_deliveredFor. reflexivity.
  - intros x Hx. apply String.eqb_eq, deliveredFor_key, Hx.
Qed.

(** When the upgraded notification was the only one of its order, every
    notification of that order after the merge is a "delivered" one. *)
Lemma unique_isFor_delivered :
  List.filter (isFor (orderIdString o)) (notifications st) = [n] ->
  forall m,
    In m (uniqueNotificationsOf orders now st) ->
    isFor (orderIdString o) m = deliveredFor (orderIdString o) m.
Proof.
  intros Honly m Hm. unfold deliveredFor.
  destruct (isFor (orderIdString o) m) eqn:Hfor;
    [|rewrite andb_false_r; reflexivity].
  rewrite andb_true_r. symmetry.
  assert (Ht : Notification.type m = delivered);
    [|rewrite Ht; reflexivity].
  unfold isFor in Hfor. apply String.eqb_eq in Hfor.
  apply uniqueNotificationsOf_In in Hm.
  destruct Hm as [(o' & Ho' & Hm)|(m0 & Hm0 & Hc)].
  - assert (Ho : o' = o).
    { apply (NoDup_map_In_inj orderIdString orders); try assumption.
      rewrite <- Hfor. symmetry. eapply orderEvents_orderKey, Hm. }
    subst o'. apply orderEvents_In in Hm. destruct Hm as [Hm|[Hm|Hm]].
    + apply newOrderEvent_inv in Hm. destruct Hm as (_ & Hex & _).
      rewrite (find_Some_existsb _ _ _ Hfind) in Hex. discriminate Hex.
    + apply upgradeEvent_inv in Hm. destruct Hm as (e & _ & _ & _ & ->).
      reflexivity.
    + apply statusChangeEvent_inv in Hm. destruct Hm as (_ & _ & _ & Ht & _).
      rewrite Ht, getNotificationType_isDelivered, Hdelivered. reflexivity.
  - destruct (carryForward_keeps _ _ _ Hc) as (_ & Hoid & _).
    assert (Hm0n : m0 = n).
    { assert (H : In m0 (List.filter (isFor (orderIdString o))
                           (notifications st))).
      { apply filter_In. split; [exact Hm0|].
        unfold isFor, orderKey in *. rewrite <- Hoid, Hfor.
        apply String.eqb_refl. }
      rewrite Honly in H. destruct H as [H|[]]. congruence. }
    subst m0. apply carryForward_inv in Hc. destruct Hc as (o' & Ho' & ->).
    apply find_some in Ho'. destruct Ho' as [Ho' Hk].
    apply String.eqb_eq in Hk.
    assert (Ho : o' = o).
    { apply (NoDup_map_In_inj orderIdString orders); try assumption.
      rewrite Hk. unfold orderKey. rewrite upgrade_orderId. reflexivity. }
    subst o'. rewrite upgrade_type, Hdelivered, Hstatus. reflexivity.
Qed.

End Upgrade.

(** C3 as stated fails: order 0 has an unread "new_order" notification; the
    next feed reports it delivered (at instant 0) together with thirty new
    orders created later; the cut at 30 leaves no notification for order 0. *)
Lemma upgraded_notification_cut_off :
  let delivered0 := sampleOrder 0 "delivered" (Some 0) (Some 0) in
  let st := runPasses
              [mkPass (FetchOk (Some [sampleOrder 0 "pending" (Some 0) None]))
                 1000] initialState in
  let st' := runPass st
               (mkPass (FetchOk (Some (delivered0 :: sampleFeed 30 0))) 2000) in
  existsb (isUnreadNewOrderFor delivered0) (notifications st) = true
  /\ isDelivered (getCurrentStatus delivered0) = true
  /\ List.filter (isFor (orderIdString delivered0)) (notifications st') = [].
Proof. vm_compute. repeat split. Qed.

(** C3, amended. Let the state hold an unread "new_order" notification for
    order X whose recorded status is not the one now reported, and let a
    feed with pairwise distinct ids report X with a delivered status.  If
    the deduplicated list fits in the 30 entries kept, the pass yields
    exactly one "delivered" notification for X, and it has the id of the
    (first) prior unread "new_order" notification for X; if that was the
    only notification for X, it is the only one for X after the pass. *)
Theorem retroactive_upgrade (st : State) (now : Z) (orders : list Order.t)
    (o : Order.t) (n : Notification.t) :
  find (isUnreadNewOrderFor o) (notifications st) = Some n ->
  In o orders ->
  NoDup (map orderIdString orders) ->
  isDelivered (getCurrentStatus o) = true ->
  optStrEq (Notification.status n) (getCurrentStatus o) = false ->
  (length (uniqueNotificationsOf orders now st) <= 30)%nat ->
  exists st' n',
    refreshNotifications (FetchOk (Some orders)) now st = Returned st'
    /\ List.filter (deliveredFor (orderIdString o)) (notifications st') = [n']
    /\ Notification.type n' = delivered
    /\ Notification.id n' = Notification.id n
    /\ (List.filter (isFor (orderIdString o)) (notifications st) = [n] ->
        List.filter (isFor (orderIdString o)) (notifications st') = [n']).
Proof.
  intros Hfind Hin Hnodup Hdel Hstatus Hcap.
  destruct (refreshNotifications_returns (FetchOk (Some orders)) now st)
    as [st' Hst'].
  exists st'.
  exists (Notification.upgradeAt n (getCurrentStatus o)
            (default (Notification.timestamp n) (Order.updated_at o))).
  split; [exact Hst'|].
  assert (Hn : notifications st'
               = sortByTimestampDesc (uniqueNotificationsOf orders now st)).
  { assert (H : notifications st'
                = notifications
                    (runPass st (mkPass (FetchOk (Some orders)) now))).
    { unfold runPass. cbn [fetched clock]. rewrite Hst'. reflexivity. }
    rewrite runPass_notifications in H. cbn [fetched clock] in H.
    assert (Hno : noOrders (Some orders) = false)
      by (destruct orders; [destruct Hin|reflexivity]).
    rewrite Hno in H. change (default [] (Some orders)) with orders in H.
    rewrite H. apply take_ge.
    rewrite (Permutation_length (sortByTimestampDesc_perm _)). exact Hcap. }
  assert (Hd : List.filter (deliveredFor (orderIdString o)) (notifications st')
               = [Notification.upgradeAt n (getCurrentStatus o)
                    (default (Notification.timestamp n) (Order.updated_at o))]).
  { apply Permutation_length_1_inv. symmetry.
    rewrite <- (unique_deliveredFor st now orders o n Hfind Hin Hnodup Hdel
                  Hstatus).
    rewrite Hn. apply filter_Permutation_bool, sortByTimestampDesc_perm. }
  split; [exact Hd|]. split; [reflexivity|]. split; [reflexivity|].
  intros Honly. rewrite <- Hd. apply filter_ext_in.
  intros m Hm. rewrite Hn in Hm.
  apply (Permutation_in _ (sortByTimestampDesc_perm _)) in Hm.
  apply (unique_isFor_delivered st now orders o n Hfind Hin Hnodup Hdel
           Hstatus Honly m Hm).
Qed.

Lemma retroactive_upgrade_witness :
  let o := sampleOrder 1 "delivered" (Some 5) (Some 7) in
  exists st' n',
    refreshNotifications (FetchOk (Some [o])) 2000 sampleState = Returned st'
    /\ List.filter (deliveredFor (orderIdString o)) (notifications st') = [n']
    /\ Notification.type n' = delivered
    /\ Notification.id n' = Notification.id sampleNotification
    /\ (List.filter (isFor (orderIdString o)) (notifications sampleState)
        = [sampleNotification] ->
        List.filter (isFor (orderIdString o)) (notifications st') = [n']).
Proof.
  intros o.
  apply (retroactive_upgrade sampleState 2000 [o] o sampleNotification).
  - reflexivity.
  - left. reflexivity.
  - apply (bool_decide_unpack _). vm_compute. exact I.
  - vm_compute. reflexivity.
  - vm_compute. reflexivity.
  - vm_compute. lia.
Defined.

(** ** Reconciling twice with the same feed *)

Lemma find_NoDup_In (orders : list Order.t) o :
  NoDup (map orderIdString orders) -> In o orders ->
  find (fun o' => String.eqb (orderIdString o') (orderIdString o)) orders
  = Some o.
Proof.
  intros Hnd Hin. induction orders as [|c orders IH]; [destruct Hin|].
  simpl. destruct (String.eqb (orderIdString c) (orderIdString o)) eqn:E.
  - apply String.eqb_eq in E. f_equal.
    apply (NoDup_map_In_inj orderIdString (c :: orders));
      [exact Hnd|left; reflexivity|exact Hin|exact E].
  - apply String.eqb_neq in E. destruct Hin as [->|Hin]; [contradiction|].
    simpl in Hnd. apply NoDup_cons in Hnd. apply IH; tauto.
Qed.

Lemma fold_insert_statuses_other orders (m : gmap string string) k :
  ~ In k (map orderIdString orders) ->
  fold_left (fun m o => <[JsPrim.toString (Order.id o) := getCurrentStatus o]> m)
    orders m !! k = m !! k.
Proof.
  revert m. induction orders as [|c orders IH]; intros m Hk; [reflexivity|].
  simpl in *. rewrite IH by tauto.
  apply lookup_insert_ne. intros Heq. apply Hk. left. exact Heq.
Qed.

Lemma fold_insert_statuses_lookup orders (m : gmap string string) o :
  NoDup (map orderIdString orders) -> In o orders ->
  fold_left (fun m o => <[JsPrim.toString (Order.id o) := getCurrentStatus o]> m)
    orders m !! orderIdString o = Some (getCurrentStatus o).
Proof.
  revert m. induction orders as [|c orders IH]; intros m Hnd Hin;
    [destruct Hin|].
  simpl in Hnd. apply NoDup_cons in Hnd. destruct Hnd as [Hc Hnd].
  simpl. destruct Hin as [->|Hin]; [|apply IH; assumption].
  rewrite fold_insert_statuses_other.
  - apply lookup_insert_eq.
  - intros Hi. apply Hc, list_elem_of_In, Hi.
Qed.

Lemma updatedStatusesOf_lookup orders now st o :
  NoDup (map orderIdString orders) -> In o orders ->
  updatedStatusesOf orders now st !! orderIdString o
  = Some (getCurrentStatus o).
Proof.
  intros Hnd Hin. unfold updatedStatusesOf. rewrite forEachOrders_snd.
  apply fold_insert_statuses_lookup; assumption.
Qed.

Lemma omap_id {A : Type} (f : A -> option A) (l : list A) :
  (forall a, In a l -> f a = Some a) -> omap f l = l.
Proof.
  induction l as [|a l IH]; intros H; simpl; [reflexivity|].
  rewrite (H a (or_introl eq_refl)). simpl. f_equal.
  apply IH. intros b Hb. apply H. right. exact Hb.
Qed.

Lemma filter_all {A : Type} (p : A -> bool) (l : list A) :
  (forall a, In a l -> p a = true) -> List.filter p l = l.
Proof.
  induction l as [|a l IH]; intros H; simpl; [reflexivity|].
  rewrite (H a (or_introl eq_refl)). f_equal.
  apply IH. intros b Hb. apply H. right. exact Hb.
Qed.

(** A notification that was carried forward is carried forward unchanged by
    the same feed. *)
Lemma carryForward_idempotent orders m0 m :
  carryForward orders m0 = Some m -> carryForward orders m = Some m.
Proof.
  intros H. unfold carryForward in *.
  destruct (find (fun o => String.eqb (JsPrim.toString (Order.id o))
                             (JsPrim.toString (Notification.orderId m0)))
              orders) as [o|] eqn:Ef; [|discriminate H].
  destruct (NotificationType_eqb (Notification.type m0) new_order
            && isDelivered (getCurrentStatus o)
            && negb (optStrEq (Notification.status m0) (getCurrentStatus o)))
    eqn:Ec; injection H as <-.
  - simpl. rewrite Ef. reflexivity.
  - rewrite Ef, Ec. reflexivity.
Qed.

Lemma carryForward_event orders prev seen statuses now o m :
  NoDup (map orderIdString orders) -> In o orders ->
  In m (orderEvents prev seen statuses now o) ->
  carryForward orders m = Some m.
Proof.
  intros Hnd Hin Hm. unfold carryForward.
  assert (Hk := orderEvents_orderKey _ _ _ _ _ _ Hm). unfold orderKey in Hk.
  rewrite Hk.
  change (fun o0 => String.eqb (JsPrim.toString (Order.id o0)) (orderIdString o))
    with (fun o' => String.eqb (orderIdString o') (orderIdString o)).
  rewrite (find_NoDup_In orders o Hnd Hin).
  apply orderEvents_In in Hm. destruct Hm as [Hm|[Hm|Hm]].
  - apply newOrderEvent_inv in Hm. destruct Hm as (_ & _ & _ & _ & Ht & _).
    rewrite Ht. destruct (isDelivered (getCurrentStatus o)); reflexivity.
  - apply upgradeEvent_inv in Hm. destruct Hm as (e & _ & _ & _ & ->).
    reflexivity.
  - apply statusChangeEvent_inv in Hm. destruct Hm as (_ & _ & _ & Ht & _).
    rewrite Ht, getNotificationType_isDelivered.
    destruct (isDelivered (getCurrentStatus o)); reflexivity.
Qed.

Lemma carryForward_unique orders now st m :
  NoDup (map orderIdString orders) ->
  In m (uniqueNotificationsOf orders now st) ->
  carryForward orders m = Some m.
Proof.
  intros Hnd Hm. apply uniqueNotificationsOf_In in Hm.
  destruct Hm as [(o & Ho & Hm)|(m0 & _ & Hc)].
  - eapply carryForward_event; eassumption.
  - eapply carryForward_idempotent, Hc.
Qed.

Lemma carryForward_in_feed orders m n :
  carryForward orders m = Some n ->
  orderKey m ∈ currentOrderIdsOf orders.
Proof.
  intros H. apply carryForward_inv in H. destruct H as (o & Ho & _).
  apply find_some in Ho. destruct Ho as [Ho Hk]. apply String.eqb_eq in Hk.
  unfold currentOrderIdsOf. apply elem_of_list_to_set.
  rewrite <- Hk. apply list_elem_of_In, (in_map orderIdString), Ho.
Qed.

Lemma updatedPrevOf_fixed orders l :
  (forall m, In m l -> carryForward orders m = Some m) ->
  updatedPrevOf orders l = l.
Proof.
  intros H. unfold updatedPrevOf. rewrite filter_all.
  - apply omap_id, H.
  - intros m Hm. apply bool_decide_eq_true.
    apply (carryForward_in_feed orders m m), H, Hm.
Qed.

Section SecondPass.

Variable st : State.
Variable now1 now2 : Z.
Variable orders : list Order.t.

Hypothesis Hnodup : NoDup (map orderIdString orders).

Local Abbreviation st1 := (reconcile orders now1 st).

Hypothesis Hflagged : unseenFlagged st1 orders = true.

Lemma second_pass_no_event o :
  In o orders ->
  orderEvents (notifications st1) (seenOrderIds st1) (lastOrderStatuses st1)
    now2 o = [].
Proof.
  intros Hin. unfold orderEvents.
  assert (Hnew : newOrderEvent (notifications st1) (seenOrderIds st1) now2 o
                 = []).
  { pose proof (proj1 (forallb_forall _ _) Hflagged o Hin) as Hf.
    cbv beta in Hf. unfold newOrderEvent.
    destruct (isNewOrder (seenOrderIds st1) o); [|reflexivity].
    cbn [negb orb] in Hf. rewrite Hf. reflexivity. }
  assert (Hup : upgradeEvent (notifications st1) o = []).
  { unfold upgradeEvent.
    destruct (find (isUnreadNewOrderFor o) (notifications st1)) as [e|] eqn:Ef;
      [|reflexivity].
    apply find_some in Ef. destruct Ef as [He Hu].
    apply isUnreadNewOrderFor_inv in Hu. destruct Hu as (Ho & Ht & _).
    assert (Hc : carryForward orders e = Some e).
    { apply (carryForward_unique orders now1 st e Hnodup).
      apply capped_In. exact He. }
    unfold carryForward in Hc. rewrite Ho in Hc.
    change (fun o0 => String.eqb (JsPrim.toString (Order.id o0))
                        (JsPrim.toString (Order.id o)))
      with (fun o' => String.eqb (orderIdString o') (orderIdString o)) in Hc.
    rewrite (find_NoDup_In orders o Hnodup Hin), Ht in Hc. simpl in Hc.
    destruct (isDelivered (getCurrentStatus o)
              && negb (optStrEq (Notification.status e) (getCurrentStatus o)))
      eqn:Ec; [|reflexivity].
    injection Hc as Hc. apply (f_equal Notification.type) in Hc.
    simpl in Hc. congruence. }
  assert (Hst : statusChangeEvent (notifications st1) (seenOrderIds st1)
                  (lastOrderStatuses st1) now2 o = []).
  { unfold statusChangeEvent. rewrite hasStatusChanged_unchanged; [reflexivity|].
    cbn [lastOrderStatuses reconcile setNotifications
         setLastOrderStatuses].
    rewrite (updatedStatusesOf_lookup orders now1 st o Hnodup Hin).
    apply String.eqb_refl. }
  rewrite Hnew, Hup, Hst. reflexivity.
Qed.

Lemma second_pass_notifications :
  notifications (reconcile orders now2 st1) = notifications st1.
Proof.
  assert (Hnew : newNotificationsOf orders now2 st1 = []).
  { rewrite newNotificationsOf_flat_map.
    assert (H : forall l, (forall o, In o l -> In o orders) ->
                flat_map (orderEvents (notifications st1) (seenOrderIds st1)
                            (lastOrderStatuses st1) now2) l = []).
    { induction l as [|o l IH]; intros Hl; simpl; [reflexivity|].
      rewrite second_pass_no_event by (apply Hl; left; reflexivity).
      apply IH. intros o' Ho'. apply Hl. right. exact Ho'. }
    apply H. auto. }
  assert (Hprev : updatedPrevOf orders (notifications st1) = notifications st1).
  { apply updatedPrevOf_fixed. intros m Hm.
    apply (carryForward_unique orders now1 st m Hnodup), capped_In, Hm. }
  cbn [notifications reconcile setNotifications].
  unfold uniqueNotificationsOf at 1. rewrite Hnew, Hprev. simpl app.
  fold (notifications st1).
  rewrite dedupe_id.
  - rewrite sortByTimestampDesc_id; [apply take_ge|].
    + cbn [notifications reconcile setNotifications].
      apply capped_length.
    + cbn [notifications reconcile setNotifications].
      apply capped_sorted.
  - cbn [notifications reconcile setNotifications].
    apply capped_NoDup. unfold uniqueNotificationsOf. apply dedupe_NoDup.
Qed.

End SecondPass.

Lemma reconcile_notifications_ext orders now st st' :
  notifications st = notifications st' ->
  seenOrderIds st = seenOrderIds st' ->
  lastOrderStatuses st = lastOrderStatuses st' ->
  notifications (reconcile orders now st)
  = notifications (reconcile orders now st').
Proof.
  destruct st, st'. simpl. intros -> -> ->. reflexivity.
Qed.

(** C4 as stated fails: 31 unseen orders created at the same instant; the
    first pass keeps 30 notifications, the second synthesizes the one that
    was cut again and puts it first. *)
Lemma second_pass_changes_list :
  let feed := sameInstantFeed 31 in
  let st1 := runPass initialState (mkPass (FetchOk (Some feed)) 1000) in
  let st2 := runPass st1 (mkPass (FetchOk (Some feed)) 2000) in
  notifications st2 <> notifications st1.
Proof.
  intros feed st1 st2 H.
  apply (f_equal (fun l => map Notification.id (take 1 l))) in H.
  vm_compute in H. discriminate H.
Qed.

(** C4, amended. Run the pass twice in a row with the same feed, whose
    order ids are pairwise distinct.  If after the first pass every order of
    the feed that is not in the seen set has an unread "new_order"
    notification in the list, the second pass synthesizes nothing: the
    notification list, the seen set and the map of last statuses after the
    second pass are those after the first. *)
Theorem reconcile_twice_same_feed (st : State) (now1 now2 : Z)
    (data : option (list Order.t)) :
  NoDup (map orderIdString (default [] data)) ->
  unseenFlagged (runPass st (mkPass (FetchOk data) now1)) (default [] data)
  = true ->
  let st1 := runPass st (mkPass (FetchOk data) now1) in
  let st2 := runPass st1 (mkPass (FetchOk data) now2) in
  notifications st2 = notifications st1
  /\ seenOrderIds st2 = seenOrderIds st1
  /\ lastOrderStatuses st2 = lastOrderStatuses st1.
Proof.
  intros Hnd Hfl st1 st2. subst st2.
  split; [|split; [apply runPass_seenOrderIds|]].
  - destruct (noOrders data) eqn:Hno.
    + subst st1. rewrite !runPass_noOrders by exact Hno. reflexivity.
    + destruct data as [orders|]; [|discriminate Hno].
      change (default [] (Some orders)) with orders in *.
      rewrite (runPass_reconcile orders now2 st1 Hno).
      subst st1. rewrite (runPass_reconcile orders now1 st Hno) in *.
      cbn [notifications setIsLoading].
      set (s1 := reconcile orders now1 (setIsLoading true st)) in *.
      rewrite (reconcile_notifications_ext orders now2 _ s1)
        by reflexivity.
      apply (second_pass_notifications (setIsLoading true st) now1 now2 orders
               Hnd).
      exact Hfl.
  - destruct (noOrders data) eqn:Hno.
    + subst st1. rewrite !runPass_noOrders by exact Hno. reflexivity.
    + destruct data as [orders|]; [|discriminate Hno].
      subst st1. rewrite !runPass_lastOrderStatuses. cbn [fetched clock].
      rewrite Hno. unfold updatedStatusesOf. rewrite !forEachOrders_snd.
      reflexivity.
Qed.

Lemma reconcile_twice_same_feed_witness :
  let data := Some (sampleFeed 3 0) in
  let st1 := runPass sampleState (mkPass (FetchOk data) 2000) in
  let st2 := runPass st1 (mkPass (FetchOk data) 3000) in
  notifications st2 = notifications st1
  /\ seenOrderIds st2 = seenOrderIds st1
  /\ lastOrderStatuses st2 = lastOrderStatuses st1.
Proof.
  apply (reconcile_twice_same_feed sampleState 2000 3000
           (Some (sampleFeed 3 0))).
  - apply (bool_decide_unpack _). vm_compute. exact I.
  - vm_compute. reflexivity.
Defined.

(** ** Worked runs *)

(** The scenario of the specification: a pending order, then delivered, then
    out of scope. *)
Example scenario_pending_delivered_gone :
  let pending := mkPass (FetchOk (Some [sampleOrder 1 "pending" (Some 5) None]))
                   1000 in
  let shipped := mkPass (FetchOk (Some [sampleOrder 1 "delivered" (Some 5)
                                          (Some 7)])) 2000 in
  let gone := mkPass (FetchOk (Some [])) 3000 in
  map (fun n => (Notification.id n, Notification.type n, Notification.isRead n))
    (notifications (runPasses [pending] initialState))
  = [("new-1-1000", new_order, false)]
  /\ map (fun n => (Notification.id n, Notification.type n,
                    Notification.isRead n))
       (notifications (runPasses [pending; shipped] initialState))
     = [("new-1-1000", delivered, false)]
  /\ notifications (runPasses [pending; shipped; gone] initialState) = [].
Proof. vm_compute. repeat split. Qed.

(** An unseen order that is delivered gets a notification with a new id at
    every pass: the check for an existing notification looks for the type
    "new_order" only, and the fresh copy wins the deduplication. *)
Example delivered_unseen_resynthesized :
  let feed := [sampleOrder 1 "delivered" (Some 5) (Some 7)] in
  let st1 := runPass initialState (mkPass (FetchOk (Some feed)) 1000) in
  let st2 := runPass st1 (mkPass (FetchOk (Some feed)) 2000) in
  map Notification.id (notifications st1) = ["new-1-1000"]
  /\ map Notification.id (notifications st2) = ["new-1-2000"].
Proof. vm_compute. split; reflexivity. Qed.

(** After the sample passes the acknowledged notification is still in the
    list, and read. *)
Example acknowledged_stays_read :
  map (fun n => (Notification.id n, Notification.isRead n))
    (notifications
       (runPasses samplePasses (markAsRead "new-1-5" sampleState)))
  = [("new-2-3000", false); ("new-1-5", true)].
Proof. vm_compute. reflexivity. Qed.

(** * Further properties *)

(** ** Acknowledgement and the unread count *)

Lemma state_eta st :
  mkState (notifications st) (seenOrderIds st) (lastOrderStatuses st)
    (isLoading st) = st.
Proof. destruct st. reflexivity. Qed.

Lemma map_id_when {A : Type} (f : A -> A) (l : list A) :
  (forall a, In a l -> f a = a) -> map f l = l.
Proof.
  induction l as [|a l IH]; intros H; simpl; [reflexivity|].
  rewrite (H a (or_introl eq_refl)). f_equal.
  apply IH. intros b Hb. apply H. right. exact Hb.
Qed.

(** X1. [markAsRead] with an id that no notification of the list has leaves
    the whole state as it is. *)
Theorem markAsRead_absent (st : State) (notificationId : string) :
  existsb (fun n => String.eqb (Notification.id n) notificationId)
    (notifications st) = false ->
  markAsRead notificationId st = st.
Proof.
  intros H. unfold markAsRead, setNotifications, setSeenOrderIds.
  cbn [notifications seenOrderIds lastOrderStatuses isLoading].
  rewrite (existsb_false_find _ _ H).
  rewrite map_id_when; [apply state_eta|].
  intros a Ha.
  destruct (String.eqb (Notification.id a) notificationId) eqn:E;
    [|reflexivity].
  assert (Hex : existsb (fun n => String.eqb (Notification.id n) notificationId)
                  (notifications st) = true).
  { apply existsb_exists. exists a. split; assumption. }
  congruence.
Qed.

Lemma markAsRead_absent_witness :
  existsb (fun n => String.eqb (Notification.id n) "new-9-5")
    (notifications sampleState) = false
  /\ markAsRead "new-9-5" sampleState = sampleState.
Proof.
  split; [reflexivity|].
  apply (markAsRead_absent sampleState "new-9-5"). reflexivity.
Defined.

(** X2. [markAsRead] lowers the unread count by the number of unread
    notifications that have the given id, and by nothing else. *)
Theorem markAsRead_unreadCount (st : State) (notificationId : string) :
  (unreadCount (markAsRead notificationId st)
   + length (List.filter
               (fun n => negb (Notification.isRead n)
                         && String.eqb (Notification.id n) notificationId)
               (notifications st))
   = unreadCount st)%nat.
Proof.
  unfold unreadCount, markAsRead. cbn [notifications setNotifications].
  induction (notifications st) as [|a l IH]; simpl; [reflexivity|].
  destruct (String.eqb (Notification.id a) notificationId) eqn:E; simpl.
  - destruct (Notification.isRead a); simpl; lia.
  - rewrite andb_false_r. destruct (Notification.isRead a); simpl; lia.
Qed.

Lemma filter_map_none {A B : Type} (p : B -> bool) (f : A -> B) (l : list A) :
  (forall a, p (f a) = false) -> List.filter p (map f l) = [].
Proof.
  intros H. induction l as [|a l IH]; simpl; [reflexivity|].
  rewrite H. exact IH.
Qed.

(** X3. After [markAllAsRead] every notification is read and no longer new,
    keeps its place and its other fields; the seen set has gained the order
    ids of all notifications; the unread count is 0 and both indicators are
    off; the map of last statuses is untouched. *)
Theorem markAllAsRead_spec (st : State) :
  let st' := markAllAsRead st in
  length (notifications st') = length (notifications st)
  /\ (forall (i : nat) (n : Notification.t),
         notifications st !! i = Some n ->
         exists n',
           notifications st' !! i = Some n'
           /\ Notification.isRead n' = true
           /\ Notification.isNew n' = false
           /\ sameButFlags n n')
  /\ (forall k, k ∈ seenOrderIds st' <->
                k ∈ seenOrderIds st
                \/ exists n, In n (notifications st) /\ orderKey n = k)
  /\ lastOrderStatuses st' = lastOrderStatuses st
  /\ unreadCount st' = 0%nat
  /\ hasNewNotifications st' = false
  /\ hasStatusChanges st' = false.
Proof.
  intros st'. subst st'. unfold markAllAsRead.
  cbn [notifications seenOrderIds lastOrderStatuses setNotifications
       setSeenOrderIds].
  split; [apply length_map|]. split; [|split; [|split; [reflexivity|]]].
  - intros i n Hi.
    rewrite list_lookup_fmap_Some_2 with (x := n) by exact Hi.
    eexists. split; [reflexivity|]. repeat split.
  - intros k. rewrite elem_of_union, elem_of_list_to_set.
    split; (intros [H|H]; [left; exact H|right]).
    + apply list_elem_of_In, in_map_iff in H. destruct H as (n & Hk & Hn).
      exists n. split; [exact Hn|exact Hk].
    + destruct H as (n & Hn & Hk). apply list_elem_of_In, in_map_iff.
      exists n. split; [exact Hk|exact Hn].
  - unfold unreadCount, hasNewNotifications, hasStatusChanges.
    cbn [notifications setNotifications].
    split; [|split].
    + rewrite filter_map_none; [reflexivity|]. reflexivity.
    + induction (notifications st) as [|a l IH]; [reflexivity|exact IH].
    + induction (notifications st) as [|a l IH]; [reflexivity|exact IH].
Qed.

Lemma markAllAsRead_seen_absorbs (s : gset string) (l : list Notification.t) n :
  In n l ->
  {[orderKey n]} ∪ s ∪ list_to_set (map orderKey l)
  = s ∪ list_to_set (map orderKey l).
Proof.
  intros Hn. apply set_eq. intros k.
  rewrite !elem_of_union, elem_of_singleton, elem_of_list_to_set.
  split; [|tauto]. intros [[->|H]|H]; [right|left; exact H|right; exact H].
  apply list_elem_of_In, in_map, Hn.
Qed.

(** X4. [markAllAsRead] absorbs acknowledgements made before it: after
    [markAsRead] of any id, or after [markAllAsRead] itself, it gives the
    state that it gives without them. *)
Theorem markAllAsRead_absorbs (st : State) (notificationId : string) :
  markAllAsRead (markAsRead notificationId st) = markAllAsRead st
  /\ markAllAsRead (markAllAsRead st) = markAllAsRead st.
Proof.
  split.
  - unfold markAllAsRead, markAsRead, setNotifications, setSeenOrderIds.
    cbn [notifications seenOrderIds lastOrderStatuses isLoading].
    set (f := fun n => if String.eqb (Notification.id n) notificationId
                       then Notification.read n else n).
    assert (Hread : map Notification.read (map f (notifications st))
                    = map Notification.read (notifications st)).
    { rewrite map_map. apply map_ext. intros a. unfold f.
      destruct (String.eqb (Notification.id a) notificationId); reflexivity. }
    assert (Hkeys : map (fun n => JsPrim.toString (Notification.orderId n))
                      (map f (notifications st))
                    = map orderKey (notifications st)).
    { rewrite map_map. apply map_ext. intros a. unfold f.
      destruct (String.eqb (Notification.id a) notificationId); reflexivity. }
    rewrite Hread, Hkeys. f_equal.
    destruct (find (fun n => String.eqb (Notification.id n) notificationId)
                (notifications st)) as [n0|] eqn:Ef; [|reflexivity].
    apply find_some in Ef. destruct Ef as [Hin _].
    apply (markAllAsRead_seen_absorbs (seenOrderIds st) (notifications st) n0
             Hin).
  - unfold markAllAsRead, setNotifications, setSeenOrderIds.
    cbn [notifications seenOrderIds lastOrderStatuses isLoading].
    rewrite !map_map. f_equal.
    apply set_eq. intros k. rewrite !elem_of_union. tauto.
Qed.

(** The indicators are ordered: a status-change indicator that is on means
    the blinking indicator is on, and the blinking indicator on means that
    the unread count is not 0. *)
Lemma indicators_ordered (st : State) :
  (hasStatusChanges st = true -> hasNewNotifications st = true)
  /\ (hasNewNotifications st = true -> (0 < unreadCount st)%nat).
Proof.
  unfold hasStatusChanges, hasNewNotifications, unreadCount. split.
  - intros H. apply existsb_exists in H. destruct H as (n & Hn & Hp).
    apply existsb_exists. exists n. split; [exact Hn|].
    apply andb_true_iff in Hp. tauto.
  - intros H. apply existsb_exists in H. destruct H as (n & Hn & Hp).
    apply andb_true_iff in Hp. destruct Hp as [_ Hr].
    assert (Hf : In n (List.filter (fun n => negb (Notification.isRead n))
                         (notifications st)))
      by (apply filter_In; split; assumption).
    destruct (List.filter _ (notifications st)); [destruct Hf|simpl; lia].
Qed.

(** ** Invariants of every run *)

Lemma runActions_invariant (I : State -> Prop) :
  (forall st a, I st -> I (runAction st a)) ->
  forall acts st, I st -> I (runActions acts st).
Proof.
  intros Hstep acts. unfold runActions.
  induction acts as [|a acts IH]; intros st Hst; simpl; [exact Hst|].
  apply IH, Hstep, Hst.
Qed.

Lemma coherent_read n : coherent n -> coherent (Notification.read n).
Proof.
  unfold coherent. intros (_ & Hs & Hd & Hn). simpl.
  split; [reflexivity|]. split; [exact Hs|]. split; assumption.
Qed.

Lemma coherent_upgradeAt e s ts :
  coherent e -> isDelivered s = true ->
  coherent (Notification.upgradeAt e s ts).
Proof.
  unfold coherent. intros (Hf & _) Hs. simpl.
  split; [exact Hf|]. split; [exists s; split; [reflexivity|]|].
  - symmetry. exact Hs.
  - split; [reflexivity|discriminate].
Qed.

Lemma coherent_upgrade e s :
  coherent e -> isDelivered s = true -> coherent (Notification.upgrade e s).
Proof.
  unfold coherent. intros (Hf & _) Hs. simpl.
  split; [exact Hf|]. split; [exists s; split; [reflexivity|]|].
  - symmetry. exact Hs.
  - split; [reflexivity|discriminate].
Qed.

Lemma generateStatusMessage_delivered s p :
  isDelivered s = true ->
  generateStatusMessage s p = "a été livrée avec succès".
Proof.
  unfold generateStatusMessage, isDelivered. cbv zeta. intros ->. reflexivity.
Qed.

Lemma orderEvents_coherent prev seen statuses now o n :
  (forall m, In m prev -> coherent m) ->
  In n (orderEvents prev seen statuses now o) ->
  coherent n.
Proof.
  intros Hprev Hn. apply orderEvents_In in Hn. destruct Hn as [Hn|[Hn|Hn]].
  - unfold newOrderEvent in Hn.
    destruct (isNewOrder seen o && _); [|destruct Hn].
    destruct (isDelivered (getCurrentStatus o)) eqn:Ed;
      destruct Hn as [<-|[]]; unfold coherent; simpl;
      (split; [reflexivity|]);
      (split; [exists (getCurrentStatus o); split; [reflexivity|]|]);
      try (symmetry; exact Ed);
      (split; [intros H; first [reflexivity|discriminate H]
              |intros H; first [reflexivity|discriminate H]]).
  - apply upgradeEvent_inv in Hn. destruct Hn as (e & He & Hd & _ & ->).
    apply find_some in He. destruct He as [He _].
    apply coherent_upgradeAt; [apply Hprev, He|exact Hd].
  - unfold statusChangeEvent in Hn.
    destruct (hasStatusChanged seen statuses o && _); [|destruct Hn].
    destruct (negb _); [|destruct Hn].
    destruct Hn as [<-|[]]. unfold coherent. simpl.
    split; [reflexivity|].
    split; [exists (getCurrentStatus o); split; [reflexivity|]|].
    + rewrite getNotificationType_isDelivered.
      destruct (isDelivered (getCurrentStatus o)); reflexivity.
    + rewrite getNotificationType_isDelivered.
      destruct (isDelivered (getCurrentStatus o)) eqn:Ed.
      * split; [intros _; apply generateStatusMessage_delivered, Ed
               |discriminate].
      * split; discriminate.
Qed.

Lemma carryForward_coherent orders m n :
  coherent m -> carryForward orders m = Some n -> coherent n.
Proof.
  intros Hm Hc. apply carryForward_inv in Hc. destruct Hc as (o & _ & ->).
  destruct (NotificationType_eqb (Notification.type m) new_order
            && isDelivered (getCurrentStatus o)
            && negb (optStrEq (Notification.status m) (getCurrentStatus o)))
    eqn:Ec; [|exact Hm].
  apply andb_true_iff in Ec. destruct Ec as [Ec _].
  apply andb_true_iff in Ec. destruct Ec as [_ Ed].
  apply coherent_upgrade; assumption.
Qed.

Lemma runAction_coherent st a :
  (forall n, In n (notifications st) -> coherent n) ->
  forall n, In n (notifications (runAction st a)) -> coherent n.
Proof.
  intros Hst n Hn. destruct a as [p|i|]; simpl in Hn.
  - rewrite runPass_notifications in Hn.
    destruct (fetched p) as [e|data]; [exact (Hst n Hn)|].
    destruct (noOrders data); [destruct Hn|].
    apply capped_In, uniqueNotificationsOf_In in Hn.
    destruct Hn as [(o & _ & Hn)|(m & Hm & Hc)].
    + eapply orderEvents_coherent; eassumption.
    + eapply carryForward_coherent; [apply Hst, Hm|exact Hc].
  - unfold markAsRead in Hn. cbn [notifications setNotifications] in Hn.
    apply in_map_iff in Hn. destruct Hn as (m & <- & Hm).
    destruct (String.eqb (Notification.id m) i);
      [apply coherent_read|]; apply Hst, Hm.
  - unfold markAllAsRead in Hn. cbn [notifications setNotifications] in Hn.
    apply in_map_iff in Hn. destruct Hn as (m & <- & Hm).
    apply coherent_read, Hst, Hm.
Qed.

Lemma reachable_coherent acts n :
  In n (notifications (runActions acts initialState)) -> coherent n.
Proof.
  revert n.
  apply (runActions_invariant
           (fun st => forall n, In n (notifications st) -> coherent n)).
  - intros st a. apply runAction_coherent.
  - intros n [].
Qed.

(** X5. Whatever passes and acknowledgements have run since the provider
    was mounted, every notification of the list is coherent: it is new
    exactly while it is unread, it has a status, its type is "delivered"
    exactly when that status is a delivered one, a "delivered" notification
    carries the delivery message and a "new_order" one the new-order
    message. *)
Theorem notifications_coherent (acts : list Action) (n : Notification.t) :
  In n (notifications (runActions acts initialState)) -> coherent n.
Proof.
  revert n.
  apply (runActions_invariant
           (fun st => forall n, In n (notifications st) -> coherent n)).
  - intros st a Hst n Hn. exact (runAction_coherent st a Hst n Hn).
  - intros n Hn. destruct Hn.
Qed.

Lemma notifications_coherent_witness :
  let n := Notification.mk "status-3-Livré-2000" (JsPrim.Num 3) delivered
             "a été livrée avec succès" "Client" "CMD-000003"
             (Some "Non spécifiée") (Some "Livré") (Some "pending") 9
             false true in
  In n (notifications (runActions sampleActions initialState))
  /\ coherent n.
Proof.
  intros n.
  assert (H : In n (notifications (runActions sampleActions initialState)))
    by (vm_compute; left; reflexivity).
  split; [exact H|].
  exact (notifications_coherent sampleActions n H).
Defined.

(** X6. Whatever passes and acknowledgements have run since the provider
    was mounted, the blinking indicator is on exactly when the unread count
    is not 0. *)
Theorem indicator_iff_unread (acts : list Action) :
  let st := runActions acts initialState in
  hasNewNotifications st = true <-> (0 < unreadCount st)%nat.
Proof.
  intros st. split; [apply indicators_ordered|].
  unfold unreadCount, hasNewNotifications. intros H.
  destruct (List.filter (fun n => negb (Notification.isRead n))
              (notifications st)) as [|n l] eqn:Ef; [simpl in H; lia|].
  assert (Hn : In n (List.filter (fun n => negb (Notification.isRead n))
                       (notifications st)))
    by (rewrite Ef; left; reflexivity).
  apply filter_In in Hn. destruct Hn as [Hn Hr].
  apply existsb_exists. exists n. split; [exact Hn|].
  destruct (reachable_coherent acts n Hn) as (Hnew & _).
  rewrite Hnew, Hr. reflexivity.
Qed.

Lemma seenOrderIds_runAction st a :
  seenOrderIds st ⊆ seenOrderIds (runAction st a).
Proof.
  destruct a as [p|i|]; simpl.
  - rewrite runPass_seenOrderIds. reflexivity.
  - unfold markAsRead. cbn [seenOrderIds setNotifications setSeenOrderIds].
    destruct (find _ (notifications st)); [apply union_subseteq_r|reflexivity].
  - unfold markAllAsRead. cbn [seenOrderIds setNotifications setSeenOrderIds].
    apply union_subseteq_l.
Qed.

(** X7. The seen set only grows: no pass and no acknowledgement removes an
    order id from it; and passes alone, whatever they fetch, leave it exactly
    as it is. *)
Theorem seenOrderIds_monotone (st : State) :
  (forall acts : list Action,
      seenOrderIds st ⊆ seenOrderIds (runActions acts st))
  /\ (forall ps : list Pass, seenOrderIds (runPasses ps st) = seenOrderIds st).
Proof.
  split.
  - intros acts. revert st. unfold runActions.
    induction acts as [|a acts IH]; intros st; simpl; [reflexivity|].
    etransitivity; [apply (seenOrderIds_runAction st a)|apply IH].
  - intros ps. revert st. unfold runPasses.
    induction ps as [|p ps IH]; intros st; simpl; [reflexivity|].
    rewrite IH. apply runPass_seenOrderIds.
Qed.

(** ** Scope of the list and the recorded statuses *)

(** X8. After a pass over a feed that is not empty, every notification of
    the list belongs to an order of that feed: what belonged to orders that
    left the feed is discarded. *)
Theorem notifications_in_scope (st : State) (now : Z) (orders : list Order.t) :
  noOrders (Some orders) = false ->
  exists st',
    refreshNotifications (FetchOk (Some orders)) now st = Returned st'
    /\ forall n, In n (notifications st') ->
                 orderKey n ∈ currentOrderIdsOf orders.
Proof.
  intros Hno.
  destruct (refreshNotifications_returns (FetchOk (Some orders)) now st)
    as [st' Hst'].
  exists st'. split; [exact Hst'|]. intros n Hn.
  assert (H : notifications st'
              = notifications (runPass st (mkPass (FetchOk (Some orders)) now))).
  { unfold runPass. cbn [fetched clock]. rewrite Hst'. reflexivity. }
  rewrite H, runPass_notifications in Hn. cbn [fetched clock] in Hn.
  rewrite Hno in Hn. change (default [] (Some orders)) with orders in Hn.
  apply capped_In, uniqueNotificationsOf_In in Hn.
  destruct Hn as [(o & Ho & Hn)|(m & Hm & Hc)].
  - apply orderEvents_orderKey in Hn. rewrite Hn.
    unfold currentOrderIdsOf. apply elem_of_list_to_set.
    apply list_elem_of_In, (in_map orderIdString), Ho.
  - destruct (carryForward_keeps _ _ _ Hc) as (_ & Ho & _).
    unfold orderKey. rewrite Ho. apply (carryForward_in_feed orders m n Hc).
Qed.

Lemma notifications_in_scope_witness :
  let orders := [sampleOrder 2 "pending" (Some 6) None] in
  noOrders (Some orders) = false
  /\ exists st',
       refreshNotifications (FetchOk (Some orders)) 2000 sampleState
       = Returned st'
       /\ forall n, In n (notifications st') ->
                    orderKey n ∈ currentOrderIdsOf orders.
Proof.
  split; [reflexivity|].
  apply (notifications_in_scope sampleState 2000). reflexivity.
Defined.

(** X9. After a pass over a feed with pairwise distinct order ids, the map
    of last statuses records for every order of the feed the status that
    the feed reports for it. *)
Theorem lastStatuses_records_feed (st : State) (now : Z)
    (orders : list Order.t) (o : Order.t) :
  NoDup (map orderIdString orders) ->
  In o orders ->
  exists st',
    refreshNotifications (FetchOk (Some orders)) now st = Returned st'
    /\ lastOrderStatuses st' !! orderIdString o = Some (getCurrentStatus o).
Proof.
  intros Hnd Hin.
  assert (Hno : noOrders (Some orders) = false)
    by (destruct orders; [destruct Hin|reflexivity]).
  unfold refreshNotifications, refreshTry. rewrite Hno.
  eexists. split; [reflexivity|].
  cbn [lastOrderStatuses setIsLoading reconcile setNotifications
       setLastOrderStatuses default].
  apply updatedStatusesOf_lookup; assumption.
Qed.

Lemma lastStatuses_records_feed_witness :
  let o := sampleOrder 2 "Livré" (Some 2) (Some 9) in
  let orders := [sampleOrder 1 "pending" (Some 1) None; o] in
  exists st',
    refreshNotifications (FetchOk (Some orders)) 2000 sampleState = Returned st'
    /\ lastOrderStatuses st' !! orderIdString o = Some (getCurrentStatus o).
Proof.
  intros o orders. apply (lastStatuses_records_feed sampleState 2000 orders o).
  - apply (bool_decide_unpack _). vm_compute. exact I.
  - right. left. reflexivity.
Defined.

(** ** What is notified, and as what *)

Lemma runPass_unacknowledged st p :
  seenOrderIds st = ∅ ->
  (forall n, In n (notifications st) ->
             Notification.type n <> status_change
             /\ Notification.previousStatus n = None
             /\ Notification.isRead n = false) ->
  forall n, In n (notifications (runPass st p)) ->
            Notification.type n <> status_change
            /\ Notification.previousStatus n = None
            /\ Notification.isRead n = false.
Proof.
  intros Hseen Hst n Hn. rewrite runPass_notifications in Hn.
  destruct (fetched p) as [e|data]; [exact (Hst n Hn)|].
  destruct (noOrders data); [destruct Hn|].
  apply capped_In, uniqueNotificationsOf_In in Hn.
  destruct Hn as [(o & _ & Hn)|(m & Hm & Hc)].
  - apply orderEvents_In in Hn. destruct Hn as [Hn|[Hn|Hn]].
    + unfold newOrderEvent in Hn.
      destruct (isNewOrder (seenOrderIds st) o && _); [|destruct Hn].
      destruct (isDelivered (getCurrentStatus o)); destruct Hn as [<-|[]];
        simpl; repeat split; discriminate.
    + apply upgradeEvent_inv in Hn. destruct Hn as (e & He & _ & _ & ->).
      apply find_some in He. destruct He as [He _].
      destruct (Hst e He) as (_ & Hp & Hr). simpl.
      repeat split; [discriminate|exact Hp|exact Hr].
    + apply statusChangeEvent_inv in Hn. destruct Hn as (Hch & _).
      unfold hasStatusChanged, isNewOrder in Hch. rewrite Hseen in Hch.
      rewrite bool_decide_eq_false_2 in Hch by apply not_elem_of_empty.
      discriminate Hch.
  - destruct (Hst m Hm) as (Ht & Hp & Hr).
    apply carryForward_inv in Hc. destruct Hc as (o & _ & ->).
    destruct (_ && _ && _); simpl; repeat split;
      first [discriminate|assumption].
Qed.

(** X10. As long as nothing has been acknowledged, a change of status is
    never notified as such: after any run of passes from the initial state
    no notification has the type "status_change" or a previous status, and
    all are unread (orders are notified as new, or as delivered). *)
Theorem no_status_change_before_acknowledgement (ps : list Pass)
    (n : Notification.t) :
  In n (notifications (runPasses ps initialState)) ->
  Notification.type n <> status_change
  /\ Notification.previousStatus n = None
  /\ Notification.isRead n = false.
Proof.
  revert n.
  assert (H : seenOrderIds (runPasses ps initialState) = ∅
              /\ forall n, In n (notifications (runPasses ps initialState)) ->
                           Notification.type n <> status_change
                           /\ Notification.previousStatus n = None
                           /\ Notification.isRead n = false);
    [|exact (proj2 H)].
  apply (runPasses_invariant
           (fun st => seenOrderIds st = ∅
                      /\ forall n, In n (notifications st) ->
                                   Notification.type n <> status_change
                                   /\ Notification.previousStatus n = None
                                   /\ Notification.isRead n = false)).
  - intros st p [Hseen Hst]. split.
    + rewrite runPass_seenOrderIds. exact Hseen.
    + apply runPass_unacknowledged; assumption.
  - split; [reflexivity|intros n []].
Qed.

Lemma no_status_change_before_acknowledgement_witness :
  let ps := [mkPass (FetchOk (Some [sampleOrder 1 "pending" (Some 5) None]))
               1000;
             mkPass (FetchOk (Some [sampleOrder 1 "En livraison" (Some 5)
                                      (Some 8)])) 2000] in
  let n := Notification.mk "new-1-1000" (JsPrim.Num 1) new_order
             "a passé une nouvelle commande" "Client" "CMD-000001"
             (Some "Non spécifiée") (Some "pending") None 5 false true in
  In n (notifications (runPasses ps initialState))
  /\ Notification.type n <> status_change
  /\ Notification.previousStatus n = None
  /\ Notification.isRead n = false.
Proof.
  intros ps n.
  assert (H : In n (notifications (runPasses ps initialState)))
    by (vm_compute; left; reflexivity).
  split; [exact H|].
  exact (no_status_change_before_acknowledgement ps n H).
Defined.

Lemma runActions_snoc acts a st :
  runActions (acts ++ [a]) st = runAction (runActions acts st) a.
Proof. unfold runActions. rewrite fold_left_app. reflexivity. Qed.

(** X11. No "new order" banner for a delivered order: after any run, a pass
    over a feed with pairwise distinct ids leaves no notification of type
    "new_order" for an order that this feed reports with a delivered
    status. *)
Theorem no_new_order_for_delivered (acts : list Action) (now : Z)
    (orders : list Order.t) (n : Notification.t) (o : Order.t) :
  NoDup (map orderIdString orders) ->
  In o orders ->
  In n (notifications
          (runPass (runActions acts initialState)
             (mkPass (FetchOk (Some orders)) now))) ->
  orderKey n = orderIdString o ->
  Notification.type n = new_order ->
  isDelivered (getCurrentStatus o) = false.
Proof.
  intros Hnd Ho Hn Hk Ht.
  assert (Hcoh : coherent n).
  { apply (reachable_coherent
             (acts ++ [Refresh (mkPass (FetchOk (Some orders)) now)])).
    rewrite runActions_snoc. exact Hn. }
  rewrite runPass_notifications in Hn. cbn [fetched clock] in Hn.
  assert (Hno : noOrders (Some orders) = false)
    by (destruct orders; [destruct Ho|reflexivity]).
  rewrite Hno in Hn. change (default [] (Some orders)) with orders in Hn.
  apply capped_In in Hn.
  apply (carryForward_unique orders now _ n Hnd) in Hn.
  unfold carryForward in Hn. fold (orderKey n) in Hn. rewrite Hk in Hn.
  change (fun o0 => String.eqb (JsPrim.toString (Order.id o0)) (orderIdString o))
    with (fun o' => String.eqb (orderIdString o') (orderIdString o)) in Hn.
  rewrite (find_NoDup_In orders o Hnd Ho), Ht in Hn. simpl in Hn.
  destruct (isDelivered (getCurrentStatus o)) eqn:Ed; [|reflexivity].
  exfalso. simpl in Hn.
  destruct (optStrEq (Notification.status n) (getCurrentStatus o)) eqn:Es.
  - destruct Hcoh as (_ & (s & Hs & Hd) & _).
    rewrite Hs in Es. simpl in Es. apply String.eqb_eq in Es. subst s.
    rewrite Ht, Ed in Hd. discriminate Hd.
  - simpl in Hn. injection Hn as Hn. apply (f_equal Notification.type) in Hn.
    simpl in Hn. congruence.
Qed.

Lemma no_new_order_for_delivered_witness :
  let orders := [sampleOrder 1 "pending" (Some 5) None;
                 sampleOrder 2 "Livré" (Some 6) (Some 9)] in
  let n := Notification.mk "new-1-3000" (JsPrim.Num 1) new_order
             "a passé une nouvelle commande" "Client" "CMD-000001"
             (Some "Non spécifiée") (Some "pending") None 5 false true in
  isDelivered (getCurrentStatus (sampleOrder 1 "pending" (Some 5) None))
  = false.
Proof.
  intros orders n.
  apply (no_new_order_for_delivered sampleActions 3000 orders n
           (sampleOrder 1 "pending" (Some 5) None)).
  - apply (bool_decide_unpack _). vm_compute. exact I.
  - left. reflexivity.
  - vm_compute. right. left. reflexivity.
  - reflexivity.
  - reflexivity.
Defined.

(** ** The notification menu *)

Lemma sortedDesc_map (f : Notification.t -> Notification.t) l :
  (forall a, Notification.timestamp (f a) = Notification.timestamp a) ->
  sortedDesc l -> sortedDesc (map f l).
Proof.
  intros Hf. unfold sortedDesc. induction 1 as [|a l Hs IH Ha]; simpl.
  - constructor.
  - constructor; [exact IH|].
    apply List.Forall_forall. intros b Hb. apply in_map_iff in Hb.
    destruct Hb as (c & <- & Hc). rewrite !Hf.
    rewrite List.Forall_forall in Ha. apply Ha, Hc.
Qed.

Lemma runAction_sorted_capped st a :
  sortedDesc (notifications st) /\ (length (notifications st) <= 30)%nat ->
  sortedDesc (notifications (runAction st a))
  /\ (length (notifications (runAction st a)) <= 30)%nat.
Proof.
  intros [Hs Hl]. destruct a as [p|i|]; simpl.
  - apply runPass_sorted_capped. split; assumption.
  - unfold markAsRead. cbn [notifications setNotifications].
    rewrite length_map. split; [|exact Hl].
    apply sortedDesc_map; [|exact Hs].
    intros a. destruct (String.eqb (Notification.id a) i); reflexivity.
  - unfold markAllAsRead. cbn [notifications setNotifications].
    rewrite length_map. split; [|exact Hl].
    apply sortedDesc_map; [|exact Hs]. reflexivity.
Qed.

(** X12. Whatever passes and acknowledgements have run, the list the
    provider holds is sorted newest first and has at most 30 entries, so the
    sort that the menu applies before it renders changes nothing: the menu
    shows the list in the order in which the provider holds it. *)
Theorem menu_shows_list_as_held (acts : list Action) :
  let st := runActions acts initialState in
  sortedDesc (notifications st)
  /\ (length (notifications st) <= 30)%nat
  /\ allNotifications st = notifications st.
Proof.
  intros st.
  assert (H : sortedDesc (notifications st)
              /\ (length (notifications st) <= 30)%nat).
  { apply (runActions_invariant
             (fun st => sortedDesc (notifications st)
                        /\ (length (notifications st) <= 30)%nat)).
    - apply runAction_sorted_capped.
    - split; [constructor|simpl; lia]. }
  destruct H as [Hs Hl]. split; [exact Hs|]. split; [exact Hl|].
  apply sortByTimestampDesc_id, Hs.
Qed.

(** X13. In every state the menu offers to mark everything as read exactly
    when the unread count that it displays is not 0. *)
Theorem mark_all_offered_iff_unread (st : State) :
  showMarkAllAsRead st = true <-> (0 < unreadCount st)%nat.
Proof.
  unfold showMarkAllAsRead, allNotifications, unreadCount.
  rewrite <- (Permutation_length
                (filter_Permutation_bool
                   (fun n => negb (Notification.isRead n)) _ _
                   (sortByTimestampDesc_perm (notifications st)))).
  set (l := sortByTimestampDesc (notifications st)).
  split.
  - intros H. apply existsb_exists in H. destruct H as (n & Hn & Hr).
    assert (Hf : In n (List.filter (fun n => negb (Notification.isRead n)) l))
      by (apply filter_In; split; assumption).
    destruct (List.filter _ l); [destruct Hf|simpl; lia].
  - intros H.
    destruct (List.filter (fun n => negb (Notification.isRead n)) l)
      as [|n f] eqn:Ef; [simpl in H; lia|].
    assert (Hn : In n (List.filter (fun n => negb (Notification.isRead n)) l))
      by (rewrite Ef; left; reflexivity).
    apply filter_In in Hn. apply existsb_exists. exists n. exact Hn.
Qed.

(** ** Relative time *)

(** X14. [formatRelativeTime] by the age [now - date] in milliseconds: less
    than a minute (or a date in the future) reads "À l'instant"; below one
    hour the minutes are shown, between 1 and 59; below one day the hours,
    between 1 and 23; below seven days the days, between 1 and 6; from
    seven days on the date itself is formatted. *)
Theorem formatRelativeTime_ranges (now date : Z) :
  let age := now - date in
  (age < 60000 -> formatRelativeTime now date = Label "À l'instant")
  /\ (60000 <= age < 3600000 ->
      formatRelativeTime now date
      = Label ("Il y a " +:+ showZ (age / 60000) +:+ " min")
      /\ 1 <= age / 60000 <= 59)
  /\ (3600000 <= age < 86400000 ->
      formatRelativeTime now date
      = Label ("Il y a " +:+ showZ (age / 3600000) +:+ " h")
      /\ 1 <= age / 3600000 <= 23)
  /\ (86400000 <= age < 604800000 ->
      formatRelativeTime now date
      = Label ("Il y a " +:+ showZ (age / 86400000) +:+ " j")
      /\ 1 <= age / 86400000 <= 6)
  /\ (604800000 <= age -> formatRelativeTime now date = LocaleDate date).
Proof.
  intros age. unfold formatRelativeTime. fold age. cbv zeta.
  assert (Hm := Z.div_mod age 60000 ltac:(lia)).
  assert (Hm' := Z.mod_pos_bound age 60000 ltac:(lia)).
  assert (Hh := Z.div_mod age 3600000 ltac:(lia)).
  assert (Hh' := Z.mod_pos_bound age 3600000 ltac:(lia)).
  assert (Hd := Z.div_mod age 86400000 ltac:(lia)).
  assert (Hd' := Z.mod_pos_bound age 86400000 ltac:(lia)).
  split; [|split; [|split; [|split]]]; intros H.
  - rewrite (proj2 (Z.ltb_lt _ _)) by lia. reflexivity.
  - split; [|lia].
    rewrite (proj2 (Z.ltb_ge _ _)) by lia.
    rewrite (proj2 (Z.ltb_lt (age / 60000) 60)) by lia. reflexivity.
  - split; [|lia].
    rewrite (proj2 (Z.ltb_ge _ _)) by lia.
    rewrite (proj2 (Z.ltb_ge (age / 60000) 60)) by lia.
    rewrite (proj2 (Z.ltb_lt (age / 3600000) 24)) by lia. reflexivity.
  - split; [|lia].
    rewrite (proj2 (Z.ltb_ge _ _)) by lia.
    rewrite (proj2 (Z.ltb_ge (age / 60000) 60)) by lia.
    rewrite (proj2 (Z.ltb_ge (age / 3600000) 24)) by lia.
    rewrite (proj2 (Z.ltb_lt (age / 86400000) 7)) by lia. reflexivity.
  - rewrite (proj2 (Z.ltb_ge _ _)) by lia.
    rewrite (proj2 (Z.ltb_ge (age / 60000) 60)) by lia.
    rewrite (proj2 (Z.ltb_ge (age / 3600000) 24)) by lia.
    rewrite (proj2 (Z.ltb_ge (age / 86400000) 7)) by lia. reflexivity.
Qed.

(** ** What the notifications say *)

Lemma truthy_nonempty s : truthy s = true -> s <> EmptyString.
Proof.
  unfold truthy. intros H Hs. subst s. discriminate H.
Qed.

Lemma truthyOpt_inv a :
  truthyOpt a = true -> exists s, a = Some s /\ s <> EmptyString.
Proof.
  destruct a as [s|]; simpl; [|discriminate].
  intros H. exists s. split; [reflexivity|apply truthy_nonempty, H].
Qed.

Lemma append_nonempty_l a b : a <> EmptyString -> a +:+ b <> EmptyString.
Proof. destruct a; [contradiction|discriminate]. Qed.

Lemma joinParts_nonempty a b s : joinParts a b = Some s -> s <> EmptyString.
Proof.
  unfold joinParts.
  destruct (truthyOpt a) eqn:Ea, (truthyOpt b) eqn:Eb; intros H.
  - injection H as <-. apply truthyOpt_inv in Ea. destruct Ea as (sa & -> & Hs).
    simpl. apply append_nonempty_l, Hs.
  - subst a. apply truthyOpt_inv in Ea. destruct Ea as (sa & Hsa & Hs).
    congruence.
  - subst b. apply truthyOpt_inv in Eb. destruct Eb as (sb & Hsb & Hs).
    congruence.
  - discriminate H.
Qed.

Lemma joinParts_Some a b :
  truthyOpt a || truthyOpt b = true -> exists s, joinParts a b = Some s.
Proof.
  unfold joinParts.
  destruct (truthyOpt a) eqn:Ea, (truthyOpt b) eqn:Eb; simpl; intros H.
  - eauto.
  - apply truthyOpt_inv in Ea. destruct Ea as (s & -> & _). eauto.
  - apply truthyOpt_inv in Eb. destruct Eb as (s & -> & _). eauto.
  - discriminate H.
Qed.

Lemma orElse_nonempty a d : d <> EmptyString -> orElse a d <> EmptyString.
Proof.
  intros Hd. unfold orElse. destruct a as [s|]; [|exact Hd].
  destruct (truthy s) eqn:E; [apply truthy_nonempty, E|exact Hd].
Qed.

(** X15. [getCustomerName] never returns the empty string (it falls back on
    "Client"), and when the client of the order has a first name or a name,
    the result is made of these alone, whatever the user of the order
    holds. *)
Theorem getCustomerName_spec (order : Order.t) :
  getCustomerName order <> EmptyString
  /\ (forall client,
         Order.client order = Some client ->
         truthyOpt (prenoms client) || truthyOpt (nom client) = true ->
         joinParts (prenoms client) (nom client)
         = Some (getCustomerName order))
  /\ (Order.client order = None -> Order.user order = None ->
      getCustomerName order = "Client").
Proof.
  split; [|split].
  - unfold getCustomerName.
    destruct (match Order.client order with
              | Some client => joinParts (prenoms client) (nom client)
              | None => None
              end) as [s|] eqn:Ec.
    + destruct (Order.client order) as [c|]; [|discriminate Ec].
      apply (joinParts_nonempty _ _ _ Ec).
    + destruct (Order.user order) as [u|]; [|discriminate].
      destruct (if truthyOpt (nom u) || truthyOpt (prenoms u)
                then joinParts (prenoms u) (nom u) else None) as [s|] eqn:Eu.
      * destruct (truthyOpt (nom u) || truthyOpt (prenoms u));
          [|discriminate Eu].
        apply (joinParts_nonempty _ _ _ Eu).
      * apply orElse_nonempty. discriminate.
  - intros c Hc Ht. unfold getCustomerName. rewrite Hc.
    destruct (joinParts_Some _ _ Ht) as [s Hs]. rewrite Hs. reflexivity.
  - intros Hc Hu. unfold getCustomerName. rewrite Hc, Hu. reflexivity.
Qed.

(** X16. [getLocation] never returns the empty string: the name of the
    delivery address wins, then the two delivery locations, and it answers
    "Non spécifiée" exactly when none of the three is a non-empty text. *)
Theorem getLocation_spec (order : Order.t) :
  getLocation order <> EmptyString
  /\ (truthyOpt (Order.location_name order) = true ->
      Order.location_name order = Some (getLocation order))
  /\ (truthyOpt (Order.location_name order)
      || truthyOpt (Order.delivery_location order)
      || truthyOpt (Order.deliveryLocation order) = false ->
      getLocation order = "Non spécifiée").
Proof.
  unfold getLocation.
  destruct (truthyOpt (Order.location_name order)) eqn:E1.
  - apply truthyOpt_inv in E1. destruct E1 as (s & Hs & Hne).
    rewrite Hs. simpl. split; [exact Hne|]. split; [reflexivity|discriminate].
  - destruct (truthyOpt (Order.delivery_location order)) eqn:E2.
    + apply truthyOpt_inv in E2. destruct E2 as (s & Hs & Hne).
      simpl. split; [|split; discriminate].
      rewrite Hs. unfold orElse.
      destruct (truthy s) eqn:Et; [exact Hne|].
      unfold truthy in Et. apply negb_false_iff, String.eqb_eq in Et.
      contradiction.
    + destruct (truthyOpt (Order.deliveryLocation order)) eqn:E3.
      * apply truthyOpt_inv in E3. destruct E3 as (s & Hs & Hne).
        simpl. split; [|split; discriminate].
        assert (Hd : orElse (Order.delivery_location order)
                       (orElse (Order.deliveryLocation order) EmptyString)
                     = s).
        { rewrite Hs. unfold orElse at 2.
          destruct (truthy s) eqn:Et.
          - unfold orElse.
            destruct (Order.delivery_location order) as [d|];
              [|reflexivity].
            simpl in E2. rewrite E2. reflexivity.
          - unfold truthy in Et. apply negb_false_iff, String.eqb_eq in Et.
            contradiction. }
        rewrite Hd. exact Hne.
      * simpl. split; [discriminate|]. split; [discriminate|reflexivity].
Qed.

Lemma length_append a b :
  String.length (a +:+ b) = (String.length a + String.length b)%nat.
Proof.
  induction a as [|c a IH]; [reflexivity|].
  change (String c a +:+ b) with (String c (a +:+ b)). simpl.
  rewrite IH. reflexivity.
Qed.

Lemma length_repeatChar n c : String.length (repeatChar n c) = n.
Proof. induction n as [|n IH]; simpl; [reflexivity|rewrite IH; reflexivity]. Qed.



(** X18. [generateStatusMessage] never returns the empty string, and it
    returns the delivery message exactly for the statuses that
    [getNotificationType] classifies as "delivered". *)
Theorem generateStatusMessage_spec (currentStatus : string)
    (previousStatus : option string) :
  generateStatusMessage currentStatus previousStatus <> EmptyString
  /\ (generateStatusMessage currentStatus previousStatus
      = "a été livrée avec succès"
      <-> getNotificationType currentStatus = delivered).
Proof.
  unfold generateStatusMessage, getNotificationType. cbv zeta.
  set (lower := toLowerCase currentStatus).
  destruct (includes lower "livré" || includes lower "delivered").
  - split; [discriminate|]. split; reflexivity.
  - assert (Hne : forall m : string,
               String.get 0 m <> Some "a"%char ->
               m <> "a été livrée avec succès").
    { intros m Hm Heq. apply Hm. rewrite Heq. reflexivity. }
    destruct (includes lower "préparation" || includes lower "preparing");
      [split; [discriminate|split; discriminate]|].
    destruct (includes lower "livraison" || includes lower "delivering");
      [split; [discriminate|split; discriminate]|].
    destruct (includes lower "annulé" || includes lower "cancelled");
      [split; [discriminate|split; discriminate]|].
    destruct (includes lower "attente" && includes lower "paiement");
      [split; [discriminate|split; discriminate]|].
    destruct (truthyOpt previousStatus);
      [|split; [discriminate|split; discriminate]].
    split.
    + intros H. apply (f_equal String.length) in H.
      rewrite length_append in H. simpl in H. lia.
    + split; [|discriminate]. intros H. exfalso. revert H. apply Hne.
      vm_compute. discriminate.
Qed.

(** ** The status of a normalized order *)

Lemma getCurrentStatus_fields o :
  getCurrentStatus o
  = orElse (Order.status_text o) (JsPrim.toString (Order.status o)).
Proof. reflexivity. Qed.

Lemma orElse_Some_self s : orElse (Some s) s = s.
Proof. unfold orElse. destruct (truthy s); reflexivity. Qed.

(** X19. A raw order with a numeric status and no [status_text] key reaches
    the engine with one of six labels, and the engine classifies it as
    delivered exactly when the code is 3. *)
Theorem normalized_numeric_status (raw : RawOrder.t) (o : Order.t) (z : Z) :
  RawOrder.status raw = JsPrim.Num z ->
  RawOrder.status_text raw = RawOrder.Absent ->
  normalizedFrom raw o ->
  In (getCurrentStatus o)
     ["En attente de paiement"; "En préparation"; "En livraison"; "Livré";
      "Annulé"; "En attente"]
  /\ (isDelivered (getCurrentStatus o) = true <-> z = 3).
Proof.
  intros Hs Ht Hn. unfold normalizedFrom, normalizedStatusFields in Hn.
  rewrite Ht in Hn. unfold normalizedStatusText in Hn. rewrite Ht, Hs in Hn.
  rewrite getCurrentStatus_fields. unfold numberStatusMap in Hn.
  destruct (z =? 0) eqn:E0; [|destruct (z =? 1) eqn:E1;
    [|destruct (z =? 2) eqn:E2; [|destruct (z =? 3) eqn:E3;
      [|destruct (z =? 4) eqn:E4]]]];
    simpl in Hn; injection Hn as Hstatus Htext;
    rewrite <- Htext; cbn [orElse truthy];
    repeat match goal with
           | H : (_ =? _) = true |- _ => apply Z.eqb_eq in H
           | H : (_ =? _) = false |- _ => apply Z.eqb_neq in H
           end.
  - split; [simpl; tauto|]. split; [vm_compute; discriminate|lia].
  - split; [simpl; tauto|]. split; [vm_compute; discriminate|lia].
  - split; [simpl; tauto|]. split; [vm_compute; discriminate|lia].
  - split; [simpl; tauto|]. split; [intros _; exact E3|reflexivity].
  - split; [simpl; tauto|]. split; [vm_compute; discriminate|lia].
  - split; [simpl; tauto|]. split; [vm_compute; discriminate|lia].
Qed.

Lemma normalized_numeric_status_witness :
  let raw := RawOrder.mk (JsPrim.Num 3) RawOrder.Absent in
  let o := Order.mk (JsPrim.Num 1) None None None None (JsPrim.Num 3)
             (Some "Livré") None None None None None None in
  In (getCurrentStatus o)
     ["En attente de paiement"; "En préparation"; "En livraison"; "Livré";
      "Annulé"; "En attente"]
  /\ (isDelivered (getCurrentStatus o) = true <-> 3 = 3).
Proof.
  intros raw o.
  apply (normalized_numeric_status raw o 3); reflexivity.
Defined.

(** X20. When the raw order holds a non-empty [status_text], the engine
    reads exactly that text; when it holds the key with [null] or with an
    empty text, the engine reads the raw status printed as it is: the
    normalization of the status does not reach the engine (a code 3 is
    read as "3"). *)
Theorem normalized_status_text_present (raw : RawOrder.t) (o : Order.t) :
  normalizedFrom raw o ->
  (forall s, RawOrder.status_text raw = RawOrder.Text s ->
             s <> EmptyString -> getCurrentStatus o = s)
  /\ (RawOrder.status_text raw = RawOrder.Null
      \/ RawOrder.status_text raw = RawOrder.Text EmptyString ->
      getCurrentStatus o = JsPrim.toString (RawOrder.status raw)).
Proof.
  intros Hn. unfold normalizedFrom, normalizedStatusFields in Hn.
  rewrite getCurrentStatus_fields. split.
  - intros s Hs Hne. rewrite Hs in Hn. injection Hn as _ <-.
    unfold orElse. destruct (truthy s) eqn:E; [reflexivity|].
    unfold truthy in E. apply negb_false_iff, String.eqb_eq in E.
    contradiction.
  - intros [Hs|Hs]; rewrite Hs in Hn; injection Hn as <- <-; reflexivity.
Qed.

Lemma normalized_status_text_present_witness :
  let raw := RawOrder.mk (JsPrim.Num 3) RawOrder.Null in
  let o := Order.mk (JsPrim.Num 1) None None None None (JsPrim.Num 3) None
             None None None None None None in
  normalizedFrom raw o
  /\ getCurrentStatus o = "3"
  /\ isDelivered (getCurrentStatus o) = false.
Proof.
  intros raw o.
  assert (H : normalizedFrom raw o) by reflexivity.
  split; [exact H|].
  destruct (normalized_status_text_present raw o H) as [_ Hnull].
  split; [apply Hnull; left; reflexivity|reflexivity].
Defined.

(** X21. A raw order with a text status and no [status_text] key: the five
    English keywords are translated whatever their case ("delivered" reads
    "Livré"), any other status is read as it is, and in every case the
    engine classifies the order as delivered exactly as it would classify
    the raw status. *)
Theorem normalized_text_status (raw : RawOrder.t) (o : Order.t) (s : string) :
  RawOrder.status raw = JsPrim.Str s ->
  RawOrder.status_text raw = RawOrder.Absent ->
  normalizedFrom raw o ->
  isDelivered (getCurrentStatus o) = isDelivered s
  /\ (toLowerCase s = "delivered" -> getCurrentStatus o = "Livré")
  /\ (stringStatusMap (toLowerCase s) = VUndefined -> getCurrentStatus o = s).
Proof.
  intros Hs Ht Hn. unfold normalizedFrom, normalizedStatusFields in Hn.
  rewrite Ht in Hn. unfold normalizedStatusText in Hn. rewrite Ht, Hs in Hn.
  rewrite getCurrentStatus_fields.
  assert (Hd : isDelivered s
               = includes (toLowerCase s) "livré"
                 || includes (toLowerCase s) "delivered") by reflexivity.
  unfold stringStatusMap in *.
  destruct (String.eqb (toLowerCase s) "pending") eqn:E1;
    [apply String.eqb_eq in E1; rewrite Hd, E1; simpl in Hn;
     injection Hn as _ <-; repeat split; try discriminate; reflexivity|].
  destruct (String.eqb (toLowerCase s) "preparing") eqn:E2;
    [apply String.eqb_eq in E2; rewrite Hd, E2; simpl in Hn;
     injection Hn as _ <-; repeat split; try discriminate; reflexivity|].
  destruct (String.eqb (toLowerCase s) "delivering") eqn:E3;
    [apply String.eqb_eq in E3; rewrite Hd, E3; simpl in Hn;
     injection Hn as _ <-; repeat split; try discriminate; reflexivity|].
  destruct (String.eqb (toLowerCase s) "delivered") eqn:E4;
    [apply String.eqb_eq in E4; rewrite Hd, E4; simpl in Hn;
     injection Hn as _ <-; repeat split; try discriminate; reflexivity|].
  destruct (String.eqb (toLowerCase s) "cancelled") eqn:E5;
    [apply String.eqb_eq in E5; rewrite Hd, E5; simpl in Hn;
     injection Hn as _ <-; repeat split; try discriminate; reflexivity|].
  destruct (String.eqb (toLowerCase s) "constructor"
            || String.eqb (toLowerCase s) "__proto__");
    [discriminate Hn|].
  simpl in Hn. injection Hn as <- <-. cbn [JsPrim.toString].
  rewrite orElse_Some_self. split; [reflexivity|]. split.
  - intros H. rewrite H in E4. discriminate E4.
  - reflexivity.
Qed.

Lemma normalized_text_status_witness :
  let raw := RawOrder.mk (JsPrim.Str "DELIVERED") RawOrder.Absent in
  let o := Order.mk (JsPrim.Num 1) None None None None (JsPrim.Str "DELIVERED")
             (Some "Livré") None None None None None None in
  isDelivered (getCurrentStatus o) = isDelivered "DELIVERED"
  /\ (toLowerCase "DELIVERED" = "delivered" -> getCurrentStatus o = "Livré")
  /\ (stringStatusMap (toLowerCase "DELIVERED") = VUndefined ->
      getCurrentStatus o = "DELIVERED").
Proof.
  intros raw o.
  apply (normalized_text_status raw o "DELIVERED"); reflexivity.
Defined.

(** ** A detected event reaches the list *)

Lemma includes_dash_cons c s :
  includes (String c s) "-" = false ->
  c <> "-"%char /\ includes s "-" = false.
Proof.
  change (includes (String c s) "-")
    with ((if ascii_dec "-" c then String.prefix EmptyString s else false)
          || includes s "-").
  destruct (ascii_dec "-" c) as [<-|Hc].
  - destruct s; discriminate.
  - intros H. split; [congruence|exact H].
Qed.

Lemma plain_key_inj a b r r' :
  includes a "-" = false -> includes b "-" = false ->
  a +:+ "-" +:+ r = b +:+ "-" +:+ r' -> a = b.
Proof.
  revert b. induction a as [|c a IH]; intros [|d b] Ha Hb H.
  - reflexivity.
  - apply includes_dash_cons in Hb. destruct Hb as [Hd _].
    change (String "-" r = String d (b +:+ "-" +:+ r')) in H.
    injection H as H _. congruence.
  - apply includes_dash_cons in Ha. destruct Ha as [Hc _].
    change (String c (a +:+ "-" +:+ r) = String "-" r') in H.
    injection H as H _. congruence.
  - apply includes_dash_cons in Ha. apply includes_dash_cons in Hb.
    change (String c (a +:+ "-" +:+ r) = String d (b +:+ "-" +:+ r')) in H.
    injection H as -> H. f_equal. apply (IH b); tauto.
Qed.

Lemma notifKey_orderKey n :
  exists r, notifKey n = orderKey n +:+ "-" +:+ r.
Proof.
  unfold notifKey, orderKey.
  destruct (Notification.type n); eexists; reflexivity.
Qed.

Section Survives.

Variable st : State.
Variable now : Z.
Variable orders : list Order.t.
Variable o : Order.t.
Variable n : Notification.t.

Hypothesis Hin : In o orders.
Hypothesis Hnodup : NoDup (map orderIdString orders).
Hypothesis Hplain : plainIds orders = true.
Hypothesis Hfirst :
  exists rest,
    orderEvents (notifications st) (seenOrderIds st) (lastOrderStatuses st)
      now o = n :: rest.

Lemma plainIds_In o' : In o' orders -> includes (orderIdString o') "-" = false.
Proof.
  intros Ho'. unfold plainIds in Hplain. rewrite forallb_forall in Hplain.
  apply negb_true_iff, Hplain, Ho'.
Qed.

(** The first notification pushed for an order of the feed survives the
    deduplication. *)
Lemma first_event_unique : In n (uniqueNotificationsOf orders now st).
Proof.
  destruct Hfirst as [rest Hrest].
  assert (Hkn : orderKey n = orderIdString o).
  { apply (orderEvents_orderKey (notifications st) (seenOrderIds st)
             (lastOrderStatuses st) now). rewrite Hrest. left. reflexivity. }
  assert (Hf : List.filter (fun m => String.eqb (notifKey m) (notifKey n))
                 (uniqueNotificationsOf orders now st) = [n]).
  { unfold uniqueNotificationsOf. rewrite dedupe_dedupeFrom.
    rewrite dedupeFrom_filter_key.
    rewrite bool_decide_eq_false_2 by apply not_elem_of_empty.
    rewrite newNotificationsOf_flat_map.
    destruct (in_split _ _ Hin) as (l1 & l2 & Hsplit).
    rewrite Hsplit, flat_map_app. simpl flat_map. rewrite Hrest.
    rewrite <- !app_assoc. rewrite find_app_skip.
    - simpl. rewrite String.eqb_refl. reflexivity.
    - intros x Hx. apply String.eqb_neq. intros Hk.
      apply in_flat_map in Hx. destruct Hx as (o' & Ho' & Hx).
      apply orderEvents_orderKey in Hx.
      destruct (notifKey_orderKey x) as [r Hr].
      destruct (notifKey_orderKey n) as [r' Hr'].
      rewrite Hr, Hr', Hx, Hkn in Hk.
      assert (Ho'in : In o' orders)
        by (rewrite Hsplit; apply in_or_app; left; exact Ho').
      apply plain_key_inj in Hk;
        [|apply plainIds_In, Ho'in|apply plainIds_In, Hin].
      assert (Hnd := Hnodup). rewrite Hsplit, map_app in Hnd. simpl in Hnd.
      apply NoDup_app in Hnd. destruct Hnd as (_ & Hdisj & _).
      apply (Hdisj (orderIdString o)).
      + rewrite <- Hk. apply list_elem_of_In, in_map, Ho'.
      + left. }
  assert (Hn : In n (List.filter
                       (fun m => String.eqb (notifKey m) (notifKey n))
                       (uniqueNotificationsOf orders now st)))
    by (rewrite Hf; left; reflexivity).
  apply filter_In in Hn. tauto.
Qed.

(** When nothing is cut, it is in the list after the pass. *)
Lemma first_event_listed :
  (length (uniqueNotificationsOf orders now st) <= 30)%nat ->
  In n (notifications
          (runPass st (mkPass (FetchOk (Some orders)) now))).
Proof.
  intros Hcap. rewrite runPass_notifications. cbn [fetched clock].
  assert (Hno : noOrders (Some orders) = false)
    by (destruct orders; [destruct Hin|reflexivity]).
  rewrite Hno. change (default [] (Some orders)) with orders.
  rewrite take_ge
    by (rewrite (Permutation_length (sortByTimestampDesc_perm _)); exact Hcap).
  apply (Permutation_in _ (Permutation_sym (sortByTimestampDesc_perm _))).
  apply first_event_unique.
Qed.

End Survives.

(** X22. A new order is notified.  Let the feed have pairwise distinct ids
    without dashes, and let one of its orders be unseen and without unread
    "new_order" notification.  If the deduplicated list fits in the 30
    entries kept, the list after the pass holds an unread, new notification
    for that order with the id "new-<order id>-<clock>", of type
    "delivered" when the order is already delivered and "new_order"
    otherwise, carrying the status, the customer name, the order number and
    the location of the order. *)
Theorem new_order_notified (st : State) (now : Z) (orders : list Order.t)
    (o : Order.t) :
  In o orders ->
  NoDup (map orderIdString orders) ->
  plainIds orders = true ->
  orderIdString o ∉ seenOrderIds st ->
  existsb (isUnreadNewOrderFor o) (notifications st) = false ->
  (length (uniqueNotificationsOf orders now st) <= 30)%nat ->
  exists n,
    In n (notifications (runPass st (mkPass (FetchOk (Some orders)) now)))
    /\ Notification.id n = newOrderId o now
    /\ Notification.orderId n = Order.id o
    /\ Notification.type n
       = (if isDelivered (getCurrentStatus o) then delivered else new_order)
    /\ Notification.status n = Some (getCurrentStatus o)
    /\ Notification.previousStatus n = None
    /\ Notification.customerName n = getCustomerName o
    /\ Notification.orderNumber n = getOrderNumber o
    /\ Notification.location n = Some (getLocation o)
    /\ Notification.timestamp n
       = (if isDelivered (getCurrentStatus o)
          then default (default (default now (Order.order_date o))
                          (Order.created_at o)) (Order.updated_at o)
          else default (default now (Order.order_date o))
                 (Order.created_at o))
    /\ Notification.isRead n = false
    /\ Notification.isNew n = true.
Proof.
  intros Hin Hnd Hplain Hseen Hex Hcap.
  assert (Hnew : isNewOrder (seenOrderIds st) o = true).
  { unfold isNewOrder. apply negb_true_iff, bool_decide_eq_false_2, Hseen. }
  assert (Hev : exists n,
             newOrderEvent (notifications st) (seenOrderIds st) now o = [n]
             /\ Notification.id n = newOrderId o now
             /\ Notification.orderId n = Order.id o
             /\ Notification.type n
                = (if isDelivered (getCurrentStatus o)
                   then delivered else new_order)
             /\ Notification.status n = Some (getCurrentStatus o)
             /\ Notification.previousStatus n = None
             /\ Notification.customerName n = getCustomerName o
             /\ Notification.orderNumber n = getOrderNumber o
             /\ Notification.location n = Some (getLocation o)
             /\ Notification.timestamp n
                = (if isDelivered (getCurrentStatus o)
                   then default (default (default now (Order.order_date o))
                                   (Order.created_at o)) (Order.updated_at o)
                   else default (default now (Order.order_date o))
                          (Order.created_at o))
             /\ Notification.isRead n = false
             /\ Notification.isNew n = true).
  { unfold newOrderEvent. rewrite Hnew, Hex. simpl.
    destruct (isDelivered (getCurrentStatus o));
      eexists; (split; [reflexivity|]); repeat split. }
  destruct Hev as (n & Hn & Hfields).
  exists n. split; [|exact Hfields].
  apply (first_event_listed st now orders o n Hin Hnd Hplain); [|exact Hcap].
  unfold orderEvents. rewrite Hn. eexists. reflexivity.
Qed.

Lemma new_order_notified_witness :
  let o := sampleOrder 2 "Livré" (Some 6) (Some 9) in
  let orders := [sampleOrder 1 "pending" (Some 5) None; o] in
  exists n,
    In n (notifications
            (runPass sampleState (mkPass (FetchOk (Some orders)) 2000)))
    /\ Notification.id n = newOrderId o 2000
    /\ Notification.orderId n = Order.id o
    /\ Notification.type n
       = (if isDelivered (getCurrentStatus o) then delivered else new_order)
    /\ Notification.status n = Some (getCurrentStatus o)
    /\ Notification.previousStatus n = None
    /\ Notification.customerName n = getCustomerName o
    /\ Notification.orderNumber n = getOrderNumber o
    /\ Notification.location n = Some (getLocation o)
    /\ Notification.timestamp n
       = (if isDelivered (getCurrentStatus o)
          then default (default (default 2000 (Order.order_date o))
                          (Order.created_at o)) (Order.updated_at o)
          else default (default 2000 (Order.order_date o))
                 (Order.created_at o))
    /\ Notification.isRead n = false
    /\ Notification.isNew n = true.
Proof.
  intros o orders.
  apply (new_order_notified sampleState 2000 orders o).
  - right. left. reflexivity.
  - apply (bool_decide_unpack _). vm_compute. exact I.
  - vm_compute. reflexivity.
  - apply (bool_decide_unpack _). vm_compute. exact I.
  - vm_compute. reflexivity.
  - vm_compute. lia.
Defined.


